(** * NutriScan AI: the streaming upload client and the upload page

    A shallow embedding of [uploadReportStreaming]
    (frontend/src/lib/api.ts) and of the state of [UploadPage]
    (its [handleUpload] and [reset]), with the properties of the event
    stream they implement: frame reassembly, frame parsing, dispatch to
    the three callbacks, and the state of the page. *)

From Stdlib Require Import Ascii String List NArith ZArith Bool Lia.
Import ListNotations.

Set Implicit Arguments.
Set Warnings "-register-all".

(* ================================================================== *)
(** * JavaScript strings and the String methods the client calls *)
(* ================================================================== *)

Module JS.

(** A JavaScript string is a sequence of UTF-16 code units. *)
Definition jsstring := list N.

Definition ch (a : ascii) : N := N_of_ascii a.

(** A string literal of the source. *)
Definition lit (s : string) : jsstring := map ch (list_ascii_of_string s).

Definition nl : N := 10.    (* "\n" *)
Definition dq : N := 34.    (* the double quote *)
Definition bsl : N := 92.   (* the backslash *)

(** A JSON string literal: [s] between double quotes. *)
Definition quoted (s : string) : jsstring := dq :: lit s ++ [dq].

Fixpoint eqb (a b : jsstring) : bool :=
  match a, b with
  | [], [] => true
  | x :: a', y :: b' => N.eqb x y && eqb a' b'
  | _, _ => false
  end.

(** [s.startsWith(prefix)] *)
Fixpoint startsWith (prefix s : jsstring) : bool :=
  match prefix, s with
  | [], _ => true
  | _ :: _, [] => false
  | p :: prefix', c :: s' => N.eqb p c && startsWith prefix' s'
  end.

(** [s.slice(n)] for [0 <= n] *)
Definition slice (n : nat) (s : jsstring) : jsstring := skipn n s.

(** [!s] for a string [s]: only the empty string is falsy. *)
Definition falsy (s : jsstring) : bool :=
  match s with [] => true | _ :: _ => false end.

(** [s.split(sep)] for a non-empty separator: the pieces between the
    occurrences of [sep], found from the left and not overlapping.  [skip]
    counts the code units of a matched separator still to be passed. *)
Fixpoint split_from (sep : jsstring) (skip : nat) (s : jsstring) : list jsstring :=
  match s with
  | [] => [[]]
  | c :: r =>
      match skip with
      | S k => split_from sep k r
      | O =>
          if startsWith sep s then [] :: split_from sep (length sep - 1) r
          else match split_from sep 0 r with
               | piece :: pieces => (c :: piece) :: pieces
               | [] => [[c]]
               end
      end
  end.

Definition split (sep s : jsstring) : list jsstring := split_from sep 0 s.

(** [sep]-joined pieces: [pieces.join(sep)] *)
Fixpoint join (sep : jsstring) (pieces : list jsstring) : jsstring :=
  match pieces with
  | [] => []
  | [p] => p
  | p :: ps => p ++ sep ++ join sep ps
  end.

(** WhiteSpace and LineTerminator code units, which [trim] strips. *)
Definition is_whitespace (c : N) : bool :=
  ((9 <=? c) && (c <=? 13) || (c =? 32) || (c =? 160) || (c =? 5760)
   || (8192 <=? c) && (c <=? 8202) || (c =? 8232) || (c =? 8233)
   || (c =? 8239) || (c =? 8287) || (c =? 12288) || (c =? 65279))%N.

Fixpoint dropWhile (p : N -> bool) (s : jsstring) : jsstring :=
  match s with
  | [] => []
  | c :: r => if p c then dropWhile p r else s
  end.

(** [s.trim()] *)
Definition trim (s : jsstring) : jsstring :=
  rev (dropWhile is_whitespace (rev (dropWhile is_whitespace s))).

End JS.

Import JS.

(* ================================================================== *)
(** * JSON values and [JSON.parse] *)
(* ================================================================== *)

Module JSON.

(** A number literal [-? digits (. digits)? (e digits)?], kept as the decimal
    it denotes: (-1)^negative * mantissa * 10^exponent. *)
Record number := { negative : bool; mantissa : N; exponent : Z }.

(** The values [JSON.parse] returns.  An object keeps its members in the
    order of the text, repeated keys included. *)
Inductive json :=
| JNull
| JBool (b : bool)
| JNumber (n : number)
| JString (s : jsstring)
| JArray (elements : list json)
| JObject (members : list (jsstring * json)).

(** ** Tokens *)

Inductive token :=
| TLBrace | TRBrace | TLBracket | TRBracket | TColon | TComma
| TString (s : jsstring) | TNumber (n : number)
| TTrue | TFalse | TNull.

Definition is_digit (c : N) : bool := ((48 <=? c) && (c <=? 57))%N.
Definition is_lower (c : N) : bool := ((97 <=? c) && (c <=? 122))%N.
Definition is_json_space (c : N) : bool :=
  ((c =? 32) || (c =? 9) || (c =? 10) || (c =? 13))%N.
Definition is_number_char (c : N) : bool :=
  is_digit c || N.eqb c (ch "+") || N.eqb c (ch "-") || N.eqb c (ch ".")
  || N.eqb c (ch "e") || N.eqb c (ch "E").

Fixpoint span (p : N -> bool) (s : jsstring) : jsstring * jsstring :=
  match s with
  | [] => ([], [])
  | c :: r => if p c then let (a, b) := span p r in (c :: a, b) else ([], s)
  end.

Definition digits_value (ds : jsstring) : N :=
  fold_left (fun a d => 10 * a + (d - 48))%N ds 0%N.

(** The number a lexeme denotes, when it follows the JSON grammar. *)
Definition number_of_lexeme (lx : jsstring) : option number :=
  let (neg, r1) :=
    match lx with
    | c :: r => if N.eqb c (ch "-") then (true, r) else (false, lx)
    | [] => (false, lx)
    end in
  let (int, r2) := span is_digit r1 in
  let int_ok :=
    match int with
    | [] => false
    | [_] => true
    | c :: _ => negb (N.eqb c (ch "0"))
    end in
  let '(frac, frac_ok, r3) :=
    match r2 with
    | c :: r =>
        if N.eqb c (ch ".")
        then let (f, r') := span is_digit r in (f, negb (falsy f), r')
        else ([], true, r2)
    | [] => ([], true, r2)
    end in
  let (e, exp_ok) :=
    match r3 with
    | [] => (0%Z, true)
    | c :: r =>
        if N.eqb c (ch "e") || N.eqb c (ch "E") then
          let (eneg, r') :=
            match r with
            | s :: r' =>
                if N.eqb s (ch "-") then (true, r')
                else if N.eqb s (ch "+") then (false, r')
                else (false, r)
            | [] => (false, r)
            end in
          let (ed, rest) := span is_digit r' in
          let v := Z.of_N (digits_value ed) in
          (if eneg then (- v)%Z else v, negb (falsy ed) && falsy rest)
        else (0%Z, false)
    end in
  if int_ok && frac_ok && exp_ok
  then Some {| negative := neg;
               mantissa := digits_value (int ++ frac);
               exponent := (e - Z.of_nat (length frac))%Z |}
  else None.

Definition token_of_word (w : jsstring) : option token :=
  if eqb w (lit "true") then Some TTrue
  else if eqb w (lit "false") then Some TFalse
  else if eqb w (lit "null") then Some TNull
  else None.

(** ** The lexer: one code unit at a time *)

Inductive lex_state :=
| LStart                                      (* between tokens *)
| LString (seen : jsstring)                   (* in a string; [seen] reversed *)
| LEscape (seen : jsstring)                   (* after a backslash *)
| LUnicode (seen : jsstring) (todo : nat) (code : N)    (* in \uXXXX *)
| LNumber (seen : jsstring)                   (* in a number; reversed *)
| LWord (seen : jsstring).                    (* in true, false or null *)

Definition hex_value (c : N) : option N :=
  if is_digit c then Some (c - 48)%N
  else if ((97 <=? c) && (c <=? 102))%N then Some (c - 87)%N
  else if ((65 <=? c) && (c <=? 70))%N then Some (c - 55)%N
  else None.

Definition escape (c : N) : option N :=
  if N.eqb c dq then Some dq
  else if N.eqb c bsl then Some bsl
  else if N.eqb c (ch "/") then Some (ch "/")
  else if N.eqb c (ch "b") then Some 8%N
  else if N.eqb c (ch "f") then Some 12%N
  else if N.eqb c (ch "n") then Some 10%N
  else if N.eqb c (ch "r") then Some 13%N
  else if N.eqb c (ch "t") then Some 9%N
  else None.

(** A code unit met between tokens: the next state and the token it is. *)
Definition start_char (c : N) : option (lex_state * list token) :=
  if is_json_space c then Some (LStart, [])
  else if N.eqb c (ch "{") then Some (LStart, [TLBrace])
  else if N.eqb c (ch "}") then Some (LStart, [TRBrace])
  else if N.eqb c (ch "[") then Some (LStart, [TLBracket])
  else if N.eqb c (ch "]") then Some (LStart, [TRBracket])
  else if N.eqb c (ch ":") then Some (LStart, [TColon])
  else if N.eqb c (ch ",") then Some (LStart, [TComma])
  else if N.eqb c dq then Some (LString [], [])
  else if N.eqb c (ch "-") || is_digit c then Some (LNumber [c], [])
  else if is_lower c then Some (LWord [c], [])
  else None.

(** The token a state holds when the input, or the token, ends there. *)
Definition flush (st : lex_state) : option (list token) :=
  match st with
  | LStart => Some []
  | LNumber seen => option_map (fun n => [TNumber n]) (number_of_lexeme (rev seen))
  | LWord seen => option_map (fun t => [t]) (token_of_word (rev seen))
  | LString _ | LEscape _ | LUnicode _ _ _ => None
  end.

Definition lex_step (st : lex_state) (c : N) : option (lex_state * list token) :=
  match st with
  | LStart => start_char c
  | LString seen =>
      if N.eqb c dq then Some (LStart, [TString (rev seen)])
      else if N.eqb c bsl then Some (LEscape seen, [])
      else if (c <? 32)%N then None
      else Some (LString (c :: seen), [])
  | LEscape seen =>
      if N.eqb c (ch "u") then Some (LUnicode seen 4 0%N, [])
      else option_map (fun x => (LString (x :: seen), [])) (escape c)
  | LUnicode seen todo code =>
      match hex_value c with
      | None => None
      | Some h =>
          let code' := (16 * code + h)%N in
          match todo with
          | S (S k) => Some (LUnicode seen (S k) code', [])
          | _ => Some (LString (code' :: seen), [])
          end
      end
  | LNumber seen =>
      if is_number_char c then Some (LNumber (c :: seen), [])
      else match flush st, start_char c with
           | Some ts, Some (st', ts') => Some (st', ts ++ ts')
           | _, _ => None
           end
  | LWord seen =>
      if is_lower c then Some (LWord (c :: seen), [])
      else match flush st, start_char c with
           | Some ts, Some (st', ts') => Some (st', ts ++ ts')
           | _, _ => None
           end
  end.

Fixpoint lex (st : lex_state) (s : jsstring) : option (list token) :=
  match s with
  | [] => flush st
  | c :: r =>
      match lex_step st c with
      | None => None
      | Some (st', ts) => option_map (app ts) (lex st' r)
      end
  end.

(** ** The parser: a stack of the containers still open *)

Inductive open_container :=
| InArray (done : list json)                            (* reversed *)
| InObject (done : list (jsstring * json)) (key : jsstring).

Inductive parse_state :=
| PValue (stack : list open_container)         (* a value must follow *)
| PArrayStart (stack : list open_container)    (* after [: a value or ] *)
| PArrayNext (done : list json) (stack : list open_container)   (* , or ] *)
| PKey (first : bool) (done : list (jsstring * json))
       (stack : list open_container)           (* a key, or } when first *)
| PColon (done : list (jsstring * json)) (key : jsstring)
         (stack : list open_container)
| PObjectNext (done : list (jsstring * json))
              (stack : list open_container)    (* , or } *)
| PEnd (v : json).

(** A value is complete: it goes to the innermost open container. *)
Definition reduce (v : json) (stack : list open_container) : parse_state :=
  match stack with
  | [] => PEnd v
  | InArray done :: stack' => PArrayNext (v :: done) stack'
  | InObject done key :: stack' => PObjectNext ((key, v) :: done) stack'
  end.

Definition value_token (t : token) (stack : list open_container)
  : option parse_state :=
  match t with
  | TString s => Some (reduce (JString s) stack)
  | TNumber n => Some (reduce (JNumber n) stack)
  | TTrue => Some (reduce (JBool true) stack)
  | TFalse => Some (reduce (JBool false) stack)
  | TNull => Some (reduce JNull stack)
  | TLBracket => Some (PArrayStart stack)
  | TLBrace => Some (PKey true [] stack)
  | TRBrace | TRBracket | TColon | TComma => None
  end.

Definition parse_step (st : parse_state) (t : token) : option parse_state :=
  match st with
  | PValue stack => value_token t stack
  | PArrayStart stack =>
      match t with
      | TRBracket => Some (reduce (JArray []) stack)
      | _ => value_token t (InArray [] :: stack)
      end
  | PArrayNext done stack =>
      match t with
      | TComma => Some (PValue (InArray done :: stack))
      | TRBracket => Some (reduce (JArray (rev done)) stack)
      | _ => None
      end
  | PKey first done stack =>
      match t with
      | TString k => Some (PColon done k stack)
      | TRBrace => if first then Some (reduce (JObject []) stack) else None
      | _ => None
      end
  | PColon done key stack =>
      match t with
      | TColon => Some (PValue (InObject done key :: stack))
      | _ => None
      end
  | PObjectNext done stack =>
      match t with
      | TComma => Some (PKey false done stack)
      | TRBrace => Some (reduce (JObject (rev done)) stack)
      | _ => None
      end
  | PEnd _ => None
  end.

Fixpoint parse_tokens (st : parse_state) (ts : list token) : option json :=
  match ts with
  | [] => match st with PEnd v => Some v | _ => None end
  | t :: ts' =>
      match parse_step st t with
      | None => None
      | Some st' => parse_tokens st' ts'
      end
  end.

(** [JSON.parse(text)]: [None] where it throws a SyntaxError. *)
Definition parse (text : jsstring) : option json :=
  match lex LStart text with
  | None => None
  | Some ts => parse_tokens (PValue []) ts
  end.

(** ** The operations of the language on these values *)

(** The last member of an object with the given key: its own property. *)
Fixpoint get_member (key : jsstring) (members : list (jsstring * json))
  : option json :=
  match members with
  | [] => None
  | (k, v) :: rest =>
      match get_member key rest with
      | Some v' => Some v'
      | None => if eqb k key then Some v else None
      end
  end.

(** [v.key], for a key that no built-in prototype defines ([error] and
    [detail] are such keys): [None] where the read throws a TypeError
    ([v] is [null]), [Some None] where it gives [undefined]. *)
Definition Get (v : json) (key : jsstring) : option (option json) :=
  match v with
  | JNull => None
  | JObject members => Some (get_member key members)
  | JBool _ | JNumber _ | JString _ | JArray _ => Some None
  end.

(** Whether the binary64 value of the literal is +0 or -0: the mantissa is
    0, or the decimal is at most 2^-1075 and rounds to 0. *)
Definition is_zero (n : number) : bool :=
  (mantissa n =? 0)%N
  || ((exponent n <? 0)%Z
      && (Z.of_N (mantissa n) * 2 ^ 1075 <=? 10 ^ (- exponent n))%Z).

(** ToBoolean *)
Definition truthy (v : json) : bool :=
  match v with
  | JNull => false
  | JBool b => b
  | JNumber n => negb (is_zero n)
  | JString s => negb (falsy s)
  | JArray _ | JObject _ => true
  end.

(** [x || fallback], where [x] may be [undefined] *)
Definition or_else (x : option json) (fallback : json) : json :=
  match x with
  | Some v => if truthy v then v else fallback
  | None => fallback
  end.

(** A string built at run time.  What the engine writes, and not this
    program, stays a symbol: the digits of a number (Number::toString, never
    empty) and the message of a built-in error. *)
Inductive atom :=
| Chr (c : N)
| NumberText (n : number)
| EngineText.

Definition text := list atom.

Definition text_of (s : jsstring) : text := map Chr s.

(** ToString, as [new Error(v)] applies it to its argument; [None] where it
    throws a TypeError.  An array is its elements joined by commas, [null]
    elements left empty.  An object is "[object Object]", unless it has a
    [toString] member of its own: that is no function, and neither it nor
    [valueOf] gives a primitive. *)
Fixpoint ToString (v : json) : option text :=
  match v with
  | JNull => Some (text_of (lit "null"))
  | JBool true => Some (text_of (lit "true"))
  | JBool false => Some (text_of (lit "false"))
  | JNumber n => Some [NumberText n]
  | JString s => Some (text_of s)
  | JArray elements =>
      (fix joined (l : list json) : option text :=
         match l with
         | [] => Some []
         | e :: r =>
             match match e with JNull => Some [] | _ => ToString e end with
             | None => None
             | Some here =>
                 match r with
                 | [] => Some here
                 | _ :: _ =>
                     option_map (fun rest => here ++ Chr (ch ",") :: rest)
                       (joined r)
                 end
             end
         end) elements
  | JObject members =>
      match get_member (lit "toString") members with
      | Some _ => None
      | None => Some (text_of (lit "[object Object]"))
      end
  end.

(** A value a component holds where it expects a string: a JSON value, or
    a string built at run time. *)
Inductive value :=
| Value (v : json)
| Text (t : text).

(** [v === ""] *)
Definition is_empty_string (v : json) : bool :=
  match v with
  | JString [] => true
  | _ => false
  end.

End JSON.

Import JSON.

(* ================================================================== *)
(** * lib/api.ts: [uploadReportStreaming] *)
(* ================================================================== *)

Module Api.

Record File := { file_name : jsstring; file_type : jsstring }.

(** A thrown value, as far as [handleUpload] looks at it. *)
Record exn := { instance_of_Error : bool; message : text }.

(** The TypeError and SyntaxError the engine throws. *)
Definition BuiltinError : exn :=
  {| instance_of_Error := true; message := [EngineText] |}.

(** What [throw new Error(v)] throws: the error with [v] as its message, or
    the TypeError of turning [v] into a string. *)
Definition Error (v : json) : exn :=
  match ToString v with
  | Some t => {| instance_of_Error := true; message := t |}
  | None => BuiltinError
  end.

(** How a call ends, with the caller's state [S] as it leaves it. *)
Inductive completion (S : Type) :=
| Normal (s : S)
| Throw (e : exn) (s : S).

Arguments Normal {S} s.
Arguments Throw {S} e s.

(** [catch { }]: the exception is dropped. *)
Definition swallow {S : Type} (c : completion S) : S :=
  match c with
  | Normal s => s
  | Throw _ s => s
  end.

(** The request, and the answer of the network to it. *)
Record FormData := { form_file : File; dietary_preferences : option jsstring }.

(** [res.body.getReader()]: [read()] gives each chunk in turn (here as the
    text [decoder.decode] makes of it), then either [done] or a rejection. *)
Record reader := { chunks : list jsstring; failure : option exn }.

Record Response := {
  ok : bool;
  json_body : option json;     (* res.json(): [None] when it rejects *)
  body : option reader         (* res.body: [None] when it is null *)
}.

Inductive fetched :=
| Rejected (e : exn)
| Resolved (res : Response).

Definition network := FormData -> fetched.

Record callbacks (S : Type) := {
  onStep : json -> S -> completion S;
  onDone : json -> S -> completion S;
  onError : json -> S -> completion S
}.

Section Stream.

Variable S : Type.
Variable cb : callbacks S.

(** The body of [for (const line of lines)]. *)
Definition scan_line (acc : jsstring * jsstring) (line : jsstring)
  : jsstring * jsstring :=
  let (eventType, eventData) := acc in
  if startsWith (lit "event: ") line then (slice 7 line, eventData)
  else if startsWith (lit "data: ") line then (eventType, slice 6 line)
  else acc.

(** [eventType] and [eventData] after the loop over the lines. *)
Definition scan_event (event : jsstring) : jsstring * jsstring :=
  fold_left scan_line (split [nl] event) ([], []).

Definition eventType (event : jsstring) : jsstring := fst (scan_event event).
Definition eventData (event : jsstring) : jsstring := snd (scan_event event).

(** The [try] block. *)
Definition dispatch (type data : jsstring) (st : S) : completion S :=
  match JSON.parse data with
  | None => Throw BuiltinError st
  | Some parsed =>
      if eqb type (lit "step") then onStep cb parsed st
      else if eqb type (lit "done") then onDone cb parsed st
      else if eqb type (lit "error") then
        match Get parsed (lit "error") with
        | None => Throw BuiltinError st
        | Some field =>
            onError cb (or_else field (JString (lit "Unknown error"))) st
        end
      else Normal st
  end.

(** The body of [for (const event of events)]. *)
Definition process_event (st : S) (event : jsstring) : S :=
  if falsy (trim event) then st
  else
    let (type, data) := scan_event event in
    if falsy data then st
    else swallow (dispatch type data st).

Definition process_events (st : S) (events : list jsstring) : S :=
  fold_left process_event events st.

(** The [while (true)] loop, from a given [buffer]. *)
Fixpoint read_loop (buffer : jsstring) (values : list jsstring)
  (failure : option exn) (st : S) : completion S :=
  match values with
  | [] =>
      match failure with
      | None => Normal st            (* done: break *)
      | Some e => Throw e st         (* read() rejects *)
      end
  | value :: rest =>
      let buffer := buffer ++ value in
      let events := split [nl; nl] buffer in
      let buffer := last events [] in          (* events.pop() || "" *)
      let events := removelast events in
      read_loop buffer rest failure (process_events st events)
  end.

Definition formData (file : File) (dietaryPreferences : list jsstring)
  : FormData :=
  {| form_file := file;
     dietary_preferences :=
       match dietaryPreferences with
       | [] => None
       | _ :: _ => Some (join (lit ",") dietaryPreferences)
       end |}.

(** [await res.json().catch(() => ({ detail: "Upload failed" }))] *)
Definition error_body (res : Response) : json :=
  match json_body res with
  | Some v => v
  | None => JObject [(lit "detail", JString (lit "Upload failed"))]
  end.

Definition uploadReportStreaming (fetch : network) (file : File)
  (dietaryPreferences : list jsstring) (st : S) : completion S :=
  match fetch (formData file dietaryPreferences) with
  | Rejected e => Throw e st
  | Resolved res =>
      if negb (ok res) then
        let err := error_body res in
        match Get err (lit "detail") with
        | None => Throw BuiltinError st
        | Some detail =>
            Throw (Error (or_else detail (JString (lit "Upload failed")))) st
        end
      else
        match body res with
        | None => Throw (Error (JString (lit "Streaming not supported"))) st
        | Some r => read_loop [] (chunks r) (failure r) st
        end
  end.

End Stream.

(** The calls a stream leads to, as callbacks that only record them see
    them. *)
Inductive call :=
| CallStep (step : json)
| CallDone (result : json)
| CallError (error : json).

Definition recorder : callbacks (list call) :=
  {| onStep := fun step log => Normal (log ++ [CallStep step]);
     onDone := fun result log => Normal (log ++ [CallDone result]);
     onError := fun error log => Normal (log ++ [CallError error]) |}.

Definition calls_of (events : list jsstring) : list call :=
  process_events recorder [] events.

(** The call made on given callbacks. *)
Definition call_handler {S : Type} (cb : callbacks S) (c : call) (st : S)
  : completion S :=
  match c with
  | CallStep step => onStep cb step st
  | CallDone result => onDone cb result st
  | CallError message => onError cb message st
  end.

(** How [read_loop] ends once every event has been processed. *)
Definition finish {S : Type} (failure : option exn) (st : S) : completion S :=
  match failure with
  | None => Normal st
  | Some e => Throw e st
  end.

Definition is_terminal (c : call) : bool :=
  match c with
  | CallStep _ => false
  | CallDone _ | CallError _ => true
  end.

End Api.

Import Api.

(* ================================================================== *)
(** * The upload page: [UploadPage], [handleUpload], [reset] *)
(* ================================================================== *)

Module UploadPage.

Inductive UploadState := idle | uploading | agent_running | done | error.

(** The state variables of the component, in the order of their
    [useState]. *)
Record page := {
  state : UploadState;
  file : option File;
  dragOver : bool;
  preferences : list jsstring;
  steps : list json;
  doneResult : option json;
  errorMessage : value
}.

Definition initial : page :=
  {| state := idle; file := None; dragOver := false; preferences := [];
     steps := []; doneResult := None; errorMessage := Text [] |}.

Definition setState (x : UploadState) (p : page) : page :=
  {| state := x; file := file p; dragOver := dragOver p;
     preferences := preferences p; steps := steps p;
     doneResult := doneResult p; errorMessage := errorMessage p |}.

Definition setFile (x : option File) (p : page) : page :=
  {| state := state p; file := x; dragOver := dragOver p;
     preferences := preferences p; steps := steps p;
     doneResult := doneResult p; errorMessage := errorMessage p |}.

Definition setDragOver (x : bool) (p : page) : page :=
  {| state := state p; file := file p; dragOver := x;
     preferences := preferences p; steps := steps p;
     doneResult := doneResult p; errorMessage := errorMessage p |}.

Definition setPreferences (x : list jsstring) (p : page) : page :=
  {| state := state p; file := file p; dragOver := dragOver p;
     preferences := x; steps := steps p;
     doneResult := doneResult p; errorMessage := errorMessage p |}.

(** [setSteps(f)], the functional update. *)
Definition setSteps (f : list json -> list json) (p : page) : page :=
  {| state := state p; file := file p; dragOver := dragOver p;
     preferences := preferences p; steps := f (steps p);
     doneResult := doneResult p; errorMessage := errorMessage p |}.

Definition setDoneResult (x : option json) (p : page) : page :=
  {| state := state p; file := file p; dragOver := dragOver p;
     preferences := preferences p; steps := steps p;
     doneResult := x; errorMessage := errorMessage p |}.

Definition setErrorMessage (x : value) (p : page) : page :=
  {| state := state p; file := file p; dragOver := dragOver p;
     preferences := preferences p; steps := steps p;
     doneResult := doneResult p; errorMessage := x |}.

(** The callbacks [handleUpload] passes. *)
Definition page_onStep (step : json) (p : page) : page :=
  setSteps (fun prev => prev ++ [step]) p.

Definition page_onDone (result : json) (p : page) : page :=
  setState done (setDoneResult (Some result) p).

Definition page_onError (message : json) (p : page) : page :=
  setState error (setErrorMessage (Value message) p).

Definition page_callbacks : callbacks page :=
  {| onStep := fun step p => Normal (page_onStep step p);
     onDone := fun result p => Normal (page_onDone result p);
     onError := fun message p => Normal (page_onError message p) |}.

(** [handleUpload] up to the delay: the new attempt begins. *)
Definition begin_upload (selectedFile : File) (p : page) : page :=
  setErrorMessage (Text [])
    (setDoneResult None
       (setSteps (fun _ => [])
          (setState uploading (setFile (Some selectedFile) p)))).

(** The [catch (err)] block of [handleUpload]. *)
Definition caught (err : exn) (p : page) : page :=
  setState error
    (setErrorMessage
       (Text (if instance_of_Error err then message err
              else text_of (lit "Agent failed")))
       p).

Definition handleUpload (fetch : network) (selectedFile : File) (p : page)
  : page :=
  let p := begin_upload selectedFile p in
  let p := setState agent_running p in
  match
    uploadReportStreaming page_callbacks fetch selectedFile (preferences p) p
  with
  | Normal p' => p'
  | Throw err p' => caught err p'
  end.

Definition reset (p : page) : page :=
  setErrorMessage (Text [])
    (setDoneResult None
       (setSteps (fun _ => []) (setFile None (setState idle p)))).

(** Every way the component changes its state. *)
Inductive action :=
| BeginUpload (selectedFile : File)   (* handleUpload, to the delay *)
| AgentRunning                        (* handleUpload, after the delay *)
| OnStep (step : json)
| OnDone (result : json)
| OnError (error : json)
| Caught (err : exn)
| DoReset
| DragOver (over : bool)
| Preferences (prefs : list jsstring).

Definition act (a : action) (p : page) : page :=
  match a with
  | BeginUpload f => begin_upload f p
  | AgentRunning => setState agent_running p
  | OnStep step => page_onStep step p
  | OnDone result => page_onDone result p
  | OnError e => page_onError e p
  | Caught err => caught err p
  | DoReset => reset p
  | DragOver over => setDragOver over p
  | Preferences prefs => setPreferences prefs p
  end.

(** The part of the state that is the session of one attempt. *)
Definition session (p : page)
  : UploadState * option File * list json * option json * value :=
  (state p, file p, steps p, doneResult p, errorMessage p).

End UploadPage.

Import UploadPage.

(* ================================================================== *)
(** * Texts of the wire used in the examples *)
(* ================================================================== *)

Module Wire.

(** "event: <kind>\ndata: <data>": one frame, without its separator. *)
Definition event (kind : string) (data : jsstring) : jsstring :=
  lit "event: " ++ lit kind ++ [nl] ++ lit "data: " ++ data.

(** The same frame as the server sends it, closed by a blank line. *)
Definition frame (kind : string) (data : jsstring) : jsstring :=
  event kind data ++ [nl; nl].

Definition step1 : jsstring :=
  lit "{" ++ quoted "step_number" ++ lit ":1," ++ quoted "action" ++ lit ":"
  ++ quoted "reasoning" ++ lit "," ++ quoted "tool_name" ++ lit ":null,"
  ++ quoted "reasoning" ++ lit ":" ++ quoted "r" ++ lit ","
  ++ quoted "result_summary" ++ lit ":" ++ quoted "s" ++ lit "}".

Definition done_abc : jsstring :=
  lit "{" ++ quoted "report_id" ++ lit ":" ++ quoted "abc" ++ lit ","
  ++ quoted "deficiency_count" ++ lit ":2," ++ quoted "biomarker_count"
  ++ lit ":10," ++ quoted "recommendation_count" ++ lit ":4}".

Definition pdf : File :=
  {| file_name := lit "report.pdf"; file_type := lit "application/pdf" |}.

(** A server that accepts the upload and streams the given chunks. *)
Definition serve (values : list jsstring) : network :=
  fun _ => Resolved {| ok := true; json_body := None;
                       body := Some {| chunks := values; failure := None |} |}.

(** A server that answers with a non-success status and this JSON body. *)
Definition refuse (answer : option json) : network :=
  fun _ => Resolved {| ok := false; json_body := answer; body := None |}.

(** Callbacks over a counter that throw at every step, after counting it. *)
(** The body of an answer whose detail is an empty list. *)
Definition empty_detail : jsstring := lit "{" ++ quoted "detail" ++ lit ":[]}".

(** A non-success answer with no JSON in its body. *)
Definition failed : Response :=
  {| ok := false; json_body := None; body := None |}.

Definition thrower : callbacks nat :=
  {| onStep := fun _ n => Throw BuiltinError (n + 1);
     onDone := fun _ n => Normal n;
     onError := fun _ n => Normal n |}.

End Wire.

(* ================================================================== *)
(** * components/DietaryPreferenceSelector.tsx *)
(* ================================================================== *)

Module Selector.

(** [list.includes(x)], for strings *)
Fixpoint includes (x : jsstring) (l : list jsstring) : bool :=
  match l with
  | [] => false
  | y :: r => eqb y x || includes x r
  end.

(** The ids of the buttons, in the order of the [preferences] table. *)
Definition offered : list jsstring :=
  [lit "vegan"; lit "vegetarian"; lit "lactose-free"; lit "gluten-free";
   lit "nut-free"].

(** What [toggle(id)] hands to [onChange]. *)
Definition toggle (selected : list jsstring) (id : jsstring) : list jsstring :=
  if includes id selected
  then filter (fun s => negb (eqb s id)) selected
  else selected ++ [id].

(** The selection after the buttons with these ids were clicked in turn. *)
Definition clicks (ids : list jsstring) (selected : list jsstring)
  : list jsstring :=
  fold_left toggle ids selected.

End Selector.

(* ================================================================== *)
(** * [StepCard]: what one step of the trace shows *)
(* ================================================================== *)

Module StepCard.

(** A step of the shape the interface [ReasoningStep] declares. *)
Record ReasoningStep := {
  step_number : Z;
  action : jsstring;
  tool_name : option jsstring;
  reasoning : jsstring;
  result_summary : jsstring
}.

Definition ellipsis : N := 8230.   (* the one character "..." *)

(** [reasoning.length > 200 ? reasoning.slice(0, 200) + "..." : reasoning] *)
Definition shorten (reasoning : jsstring) : jsstring :=
  if (200 <? length reasoning)%nat
  then firstn 200 reasoning ++ [ellipsis]
  else reasoning.

(** [tool_name.replace(/_/g, " ")] *)
Definition spaced (tool_name : jsstring) : jsstring :=
  map (fun c => if N.eqb c (ch "_") then ch " " else c) tool_name.

(** The texts of the card: each is there when its condition holds. *)
Record card := {
  isToolCall : bool;
  tool_label : option jsstring;
  reasoning_text : option jsstring;
  summary_text : option jsstring
}.

Definition StepCard (step : ReasoningStep) : card :=
  let isToolCall := eqb (action step) (lit "tool_call") in
  {| isToolCall := isToolCall;
     tool_label :=
       match tool_name step with
       | Some name =>
           if isToolCall && negb (falsy name) then Some (spaced name)
           else None
       | None => None
       end;
     reasoning_text :=
       if falsy (reasoning step) then None
       else Some (shorten (reasoning step));
     summary_text :=
       if falsy (result_summary step) then None
       else Some (result_summary step) |}.

End StepCard.

(* ================================================================== *)
(** * The upload page: its event handlers and what it renders *)
(* ================================================================== *)

Module UploadEvents.

(** [handleDrop]: [files] is [e.dataTransfer.files]. *)
Definition handleDrop (fetch : network) (files : list File) (p : page)
  : page :=
  let p := setDragOver false p in
  match files with
  | droppedFile :: _ =>
      if eqb (file_type droppedFile) (lit "application/pdf")
      then handleUpload fetch droppedFile p
      else p
  | [] => p
  end.

(** [handleFileInput]: [files] is [e.target.files]. *)
Definition handleFileInput (fetch : network) (files : list File) (p : page)
  : page :=
  match files with
  | selected :: _ => handleUpload fetch selected p
  | [] => p
  end.

(** A result of the shape the interface [StreamDoneEvent] declares. *)
Record StreamDoneEvent := {
  report_id : jsstring;
  deficiency_count : number;
  biomarker_count : number;
  recommendation_count : number
}.

(** The state variables the render reads, holding values of the types they
    are declared with: [useState<ReasoningStep[]>],
    [useState<StreamDoneEvent | null>] and, for the message, a string.  The
    render is given for these.  (On other values it can throw and show
    nothing: [step.step_number] of a step that is null, or an object where
    the message is shown.) *)
Record view := {
  view_state : UploadState;
  view_file : option File;
  view_steps : list StepCard.ReasoningStep;
  view_doneResult : option StreamDoneEvent;
  view_errorMessage : text
}.

(** The blocks of the page below its header, with what they show.  The
    cards of a trace are those of the steps in order; with no step the
    running agent shows "Agent is starting up" in their place, and the done
    and error panels leave the trace out. *)
Inductive panel :=
| UploadZone       (* the drop zone, the file input and the selector *)
| UploadingFlash (name : option jsstring)
| AgentTrace (name : option jsstring) (cards : list StepCard.card)
| DonePanel        (* the summary, with "Upload Another", and the trace *)
    (result : StreamDoneEvent) (trace : list StepCard.card)
| ErrorPanel       (* the message, "Try Again", the trace and the selector *)
    (message : text) (trace : list StepCard.card).

(** [steps.map((step) => <StepCard ... step={step} />)] *)
Definition trace_of (v : view) : list StepCard.card :=
  map StepCard.StepCard (view_steps v).

(** [file?.name] *)
Definition name_of (v : view) : option jsstring :=
  option_map file_name (view_file v).

(** The blocks the render returns, in the order of the JSX. *)
Definition panels (v : view) : list panel :=
  (match view_state v with idle => [UploadZone] | _ => [] end)
  ++ (match view_state v with
      | uploading => [UploadingFlash (name_of v)]
      | _ => []
      end)
  ++ (match view_state v with
      | agent_running => [AgentTrace (name_of v) (trace_of v)]
      | _ => []
      end)
  ++ (match view_state v, view_doneResult v with
      | done, Some result => [DonePanel result (trace_of v)]
      | _, _ => []
      end)
  ++ (match view_state v with
      | error => [ErrorPanel (view_errorMessage v) (trace_of v)]
      | _ => []
      end).

(** Whether a button with [onClick={reset}] is on the page. *)
Definition offers_reset (v : view) : bool :=
  existsb (fun b => match b with
                    | DonePanel _ _ | ErrorPanel _ _ => true
                    | _ => false
                    end)
    (panels v).

(** Whether the drop zone and the file input are on the page. *)
Definition offers_upload (v : view) : bool :=
  existsb (fun b => match b with UploadZone => true | _ => false end)
    (panels v).

(** ** The values of the declared types among those a stream can deliver *)

(** A number whose decimal has no negative exponent, so a whole number,
    and is below 2^53 in size, so the number the engine holds for it. *)
Definition whole (n : number) : option Z :=
  if (0 <=? exponent n)%Z then
    let m := (Z.of_N (mantissa n) * 10 ^ exponent n)%Z in
    if (m <? 2 ^ 53)%Z then Some (if negative n then (- m)%Z else m)
    else None
  else None.

(** An object whose members have the types of [ReasoningStep]: a whole
    number, three strings, and a tool name that is a string or null. *)
Definition as_step (v : json) : option StepCard.ReasoningStep :=
  match v with
  | JObject members =>
      match get_member (lit "step_number") members,
            get_member (lit "action") members,
            get_member (lit "tool_name") members,
            get_member (lit "reasoning") members,
            get_member (lit "result_summary") members with
      | Some (JNumber n), Some (JString a), Some t,
        Some (JString r), Some (JString s) =>
          match whole n,
                match t with
                | JNull => Some None
                | JString name => Some (Some name)
                | _ => None
                end with
          | Some k, Some tool =>
              Some {| StepCard.step_number := k; StepCard.action := a;
                      StepCard.tool_name := tool; StepCard.reasoning := r;
                      StepCard.result_summary := s |}
          | _, _ => None
          end
      | _, _, _, _, _ => None
      end
  | _ => None
  end.

Fixpoint as_steps (l : list json) : option (list StepCard.ReasoningStep) :=
  match l with
  | [] => Some []
  | v :: rest =>
      match as_step v, as_steps rest with
      | Some step, Some others => Some (step :: others)
      | _, _ => None
      end
  end.

(** An object whose members have the types of [StreamDoneEvent]. *)
Definition as_done (v : json) : option StreamDoneEvent :=
  match v with
  | JObject members =>
      match get_member (lit "report_id") members,
            get_member (lit "deficiency_count") members,
            get_member (lit "biomarker_count") members,
            get_member (lit "recommendation_count") members with
      | Some (JString i), Some (JNumber d), Some (JNumber b),
        Some (JNumber r) =>
          Some {| report_id := i; deficiency_count := d;
                  biomarker_count := b; recommendation_count := r |}
      | _, _, _, _ => None
      end
  | _ => None
  end.

(** [doneResult]: null, as it is set or as a done frame delivers it, or a
    result. *)
Definition as_result (x : option json) : option (option StreamDoneEvent) :=
  match x with
  | None | Some JNull => Some None
  | Some v => option_map Some (as_done v)
  end.

(** [errorMessage]: a string. *)
Definition as_message (x : value) : option text :=
  match x with
  | Text t => Some t
  | Value (JString s) => Some (text_of s)
  | Value _ => None
  end.

(** The page, when its state variables hold values of their types. *)
Definition view_of (p : page) : option view :=
  match as_steps (steps p), as_result (doneResult p),
        as_message (errorMessage p) with
  | Some typed, Some result, Some message =>
      Some {| view_state := state p; view_file := file p;
              view_steps := typed; view_doneResult := result;
              view_errorMessage := message |}
  | _, _, _ => None
  end.

End UploadEvents.

(* ================================================================== *)
(** * lib/api.ts: [uploadReport] and [getReport] *)
(* ================================================================== *)

Module ApiCalls.

(** How the promise of a call settles. *)
Inductive settled :=
| Fulfilled (v : json)
| RejectedWith (e : exn).

(** [process.env.NEXT_PUBLIC_API_URL || "http://localhost:8000"] *)
Definition API_BASE (NEXT_PUBLIC_API_URL : option jsstring) : jsstring :=
  match NEXT_PUBLIC_API_URL with
  | Some url => if falsy url then lit "http://localhost:8000" else url
  | None => lit "http://localhost:8000"
  end.

(** [return res.json()] *)
Definition json_of (res : Response) : settled :=
  match json_body res with
  | Some v => Fulfilled v
  | None => RejectedWith BuiltinError
  end.

Definition uploadReport (fetch : network) (file : File)
  (dietaryPreferences : list jsstring) : settled :=
  match fetch (formData file dietaryPreferences) with
  | Rejected e => RejectedWith e
  | Resolved res =>
      if negb (ok res) then
        let err :=
          match json_body res with
          | Some v => v
          | None => JObject [(lit "detail", JString (lit "Upload failed"))]
          end in
        match Get err (lit "detail") with
        | None => RejectedWith BuiltinError
        | Some detail =>
            RejectedWith (Error (or_else detail (JString (lit "Upload failed"))))
        end
      else json_of res
  end.

(** The address [getReport] asks. *)
Definition report_url (base reportId : jsstring) : jsstring :=
  base ++ lit "/api/reports/" ++ reportId.

(** [fetch] answers a GET by its address. *)
Definition getReport (base : jsstring) (fetch : jsstring -> fetched)
  (reportId : jsstring) : settled :=
  match fetch (report_url base reportId) with
  | Rejected e => RejectedWith e
  | Resolved res =>
      if negb (ok res) then
        let err :=
          match json_body res with
          | Some v => v
          | None => JObject [(lit "detail", JString (lit "Report not found"))]
          end in
        match Get err (lit "detail") with
        | None => RejectedWith BuiltinError
        | Some detail =>
            RejectedWith
              (Error (or_else detail (JString (lit "Report not found"))))
        end
      else json_of res
  end.

End ApiCalls.

(* ================================================================== *)
(** * The cart page: [remove], [updateQty], the groups, the buttons *)
(* ================================================================== *)

Module Cart.

(** An item of the shape the interface [CartItem] declares.  Its numbers
    are whole numbers here; on those the arithmetic of the buttons is exact
    below 2^53. *)
Record CartItem := {
  id : Z;
  name : jsstring;
  emoji : jsstring;
  nutrient : jsstring;
  amount : jsstring;
  category : jsstring;
  quantity : Z;
  instacart_url : jsstring
}.

(** [{ ...item, quantity: qty }] *)
Definition with_quantity (qty : Z) (item : CartItem) : CartItem :=
  {| id := id item; name := name item; emoji := emoji item;
     nutrient := nutrient item; amount := amount item;
     category := category item; quantity := qty;
     instacart_url := instacart_url item |}.

Definition remove (id0 : Z) (c : list CartItem) : list CartItem :=
  filter (fun item => negb (Z.eqb (id item) id0)) c.

Definition updateQty (id0 qty : Z) (c : list CartItem) : list CartItem :=
  map (fun item => if Z.eqb (id item) id0 then with_quantity qty item
                   else item) c.

(** [[...new Set(xs)]]: each string once, where it first comes. *)
Fixpoint unique_from (seen xs : list jsstring) : list jsstring :=
  match xs with
  | [] => []
  | x :: r =>
      if Selector.includes x seen then unique_from seen r
      else x :: unique_from (x :: seen) r
  end.

Definition nutrients (cart : list CartItem) : list jsstring :=
  unique_from [] (map nutrient cart).

Section Groups.

(** [String.prototype.toLowerCase], whatever its table of letters. *)
Variable toLowerCase : jsstring -> jsstring.

(** The items listed under a nutrient. *)
Definition items_of (n : jsstring) (cart : list CartItem) : list CartItem :=
  filter (fun i => eqb (nutrient i) n || eqb (category i) (toLowerCase n))
    cart.

(** The sections rendered: a nutrient with no item gives [null]. *)
Definition sections (cart : list CartItem)
  : list (jsstring * list CartItem) :=
  flat_map
    (fun n =>
       match items_of n cart with
       | [] => []
       | items => [(n, items)]
       end)
    (nutrients cart).

End Groups.

(** The buttons of an item's row, with the handlers the page gives them. *)
Definition click_minus (item : CartItem) (c : list CartItem) : list CartItem :=
  updateQty (id item) (Z.max 1 (quantity item - 1)) c.

Definition click_plus (item : CartItem) (c : list CartItem) : list CartItem :=
  updateQty (id item) (quantity item + 1) c.

Definition click_remove (item : CartItem) (c : list CartItem) : list CartItem :=
  remove (id item) c.

End Cart.

(* ================================================================== *)
(** * What a list of calls amounts to *)
(* ================================================================== *)

Module Outcome.

(** The payloads of the step calls, in order. *)
Fixpoint steps_of (calls : list call) : list json :=
  match calls with
  | [] => []
  | CallStep step :: rest => step :: steps_of rest
  | _ :: rest => steps_of rest
  end.

(** The last call that satisfies [test]. *)
Fixpoint last_call (test : call -> bool) (calls : list call) : option call :=
  match calls with
  | [] => None
  | c :: rest =>
      match last_call test rest with
      | Some c' => Some c'
      | None => if test c then Some c else None
      end
  end.

Definition is_done (c : call) : bool :=
  match c with CallDone _ => true | _ => false end.

Definition is_error (c : call) : bool :=
  match c with CallError _ => true | _ => false end.

(** [s.includes(sep)]: [sep] is somewhere in [s]. *)
Fixpoint occurs (sep s : jsstring) : bool :=
  startsWith sep s
  || match s with
     | [] => false
     | _ :: r => occurs sep r
     end.

(** The frames a reader delivers before it ends: the text it gives, cut at
    the blank lines, without what follows the last of them. *)
Definition frames (r : reader) : list jsstring :=
  removelast (split [nl; nl] (concat (chunks r))).

End Outcome.

(* ================================================================== *)
(** * More inputs for the examples *)
(* ================================================================== *)

Module Samples.

(** A stream of a step, a done frame and an error frame. *)
Definition done_then_error : reader :=
  {| chunks := [Wire.frame "step" Wire.step1; Wire.frame "done" Wire.done_abc;
                Wire.frame "error" (lit "{}")];
     failure := None |}.

(** A tool call, of the declared shape as [Wire.step1] is. *)
Definition step2 : jsstring :=
  lit "{" ++ quoted "step_number" ++ lit ":2," ++ quoted "action" ++ lit ":"
  ++ quoted "tool_call" ++ lit "," ++ quoted "tool_name" ++ lit ":"
  ++ quoted "lookup_reference_range" ++ lit ","
  ++ quoted "reasoning" ++ lit ":" ++ quoted "r" ++ lit ","
  ++ quoted "result_summary" ++ lit ":" ++ quoted "s" ++ lit "}".

(** A stream of two steps of the declared shape, with no terminal frame. *)
Definition typed_steps : reader :=
  {| chunks := [Wire.frame "step" Wire.step1; Wire.frame "step" step2];
     failure := None |}.

Definition streaming (r : reader) : Response :=
  {| ok := true; json_body := None; body := Some r |}.

(** A done frame with the line ends of a server that writes CR LF. *)
Definition crlf_done : jsstring :=
  lit "event: done" ++ [13; 10]%N ++ lit "data: " ++ Wire.done_abc
  ++ [13; 10; 13; 10]%N.

(** A reader whose second read is rejected with a value that is no Error. *)
Definition broken : reader :=
  {| chunks := [Wire.frame "step" Wire.step1];
     failure := Some {| instance_of_Error := false; message := [] |} |}.

Definition photo : File :=
  {| file_name := lit "scan.png"; file_type := lit "image/png" |}.

Definition spinach : Cart.CartItem :=
  {| Cart.id := 1; Cart.name := lit "Spinach"; Cart.emoji := lit "leaf";
     Cart.nutrient := lit "Iron"; Cart.amount := lit "200 g";
     Cart.category := lit "vegetables"; Cart.quantity := 1;
     Cart.instacart_url := lit "https://example.org/spinach" |}.

Definition salmon : Cart.CartItem :=
  {| Cart.id := 2; Cart.name := lit "Salmon"; Cart.emoji := lit "fish";
     Cart.nutrient := lit "Vitamin D"; Cart.amount := lit "150 g";
     Cart.category := lit "iron"; Cart.quantity := 2;
     Cart.instacart_url := lit "https://example.org/salmon" |}.

(** Lower case for the letters A to Z. *)
Definition lower (s : jsstring) : jsstring :=
  map (fun c => if ((65 <=? c) && (c <=? 90))%N then (c + 32)%N else c) s.

End Samples.

(* ================================================================== *)
(** * Properties of the String methods *)
(* ================================================================== *)

Section StringFacts.

Lemma eqb_eq (a b : jsstring) : eqb a b = true <-> a = b.
Proof.
  revert b; induction a as [|x a IH]; intros [|y b]; simpl;
    try (split; [discriminate | discriminate]); try (split; reflexivity).
  rewrite andb_true_iff, N.eqb_eq, IH.
  split; [intros [-> ->]; reflexivity | intros E; inversion E; auto].
Qed.

Lemma eqb_eq_refl (a : jsstring) : eqb a a = true.
Proof. apply eqb_eq. reflexivity. Qed.

Lemma falsy_nil (s : jsstring) : falsy s = true <-> s = [].
Proof. destruct s; simpl; split; congruence. Qed.

Lemma startsWith_app (p s t : jsstring) :
  startsWith p s = true -> startsWith p (s ++ t) = true.
Proof.
  revert s; induction p as [|x p IH]; intros [|c s]; simpl; try congruence.
  rewrite !andb_true_iff; intros [E H]; auto.
Qed.

Lemma startsWith_head (c : N) (p s : jsstring) :
  startsWith (c :: p) s = true -> exists r, s = c :: r.
Proof.
  destruct s as [|x s]; simpl; [discriminate|].
  rewrite andb_true_iff, N.eqb_eq. intros [-> _]. eauto.
Qed.

Lemma startsWith_length (p s : jsstring) :
  startsWith p s = true -> length p <= length s.
Proof.
  revert s; induction p as [|x p IH]; intros [|c s]; simpl;
    try congruence; try lia.
  rewrite andb_true_iff; intros [_ H]; apply IH in H; lia.
Qed.

Lemma startsWith_split (p s : jsstring) :
  startsWith p s = true -> s = p ++ skipn (length p) s.
Proof.
  revert s; induction p as [|x p IH]; intros [|c s]; simpl;
    try congruence.
  rewrite andb_true_iff, N.eqb_eq; intros [-> H]; f_equal; auto.
Qed.

(** A separator that appears only once more text has arrived straddles the
    end of what was there. *)
Lemma startsWith_late (p s t : jsstring) :
  startsWith p s = false -> startsWith p (s ++ t) = true ->
  length s < length p.
Proof.
  revert s; induction p as [|x p IH]; intros [|c s]; simpl;
    try congruence; try lia.
  rewrite andb_false_iff, andb_true_iff; intros [E|E] [E' H]; try congruence.
  apply (IH s) in H; auto; lia.
Qed.

Variable sep : jsstring.

Lemma split_from_nonempty (k : nat) (s : jsstring) : split_from sep k s <> [].
Proof.
  revert k; induction s as [|c r IH]; intros k; simpl; try discriminate.
  destruct k; auto.
  destruct (startsWith sep (c :: r)); try discriminate.
  destruct (split_from sep 0 r); discriminate.
Qed.

Lemma split_from_cons (c : N) (r : jsstring) :
  startsWith sep (c :: r) = false ->
  exists piece pieces,
    split_from sep 0 r = piece :: pieces /\
    split_from sep 0 (c :: r) = (c :: piece) :: pieces.
Proof.
  intros E. cbn [split_from]. rewrite E.
  destruct (split_from sep 0 r) as [|piece pieces] eqn:R.
  - exfalso; exact (split_from_nonempty _ _ R).
  - eauto.
Qed.

Lemma split_from_match (c : N) (r : jsstring) :
  startsWith sep (c :: r) = true ->
  split_from sep 0 (c :: r) = [] :: split_from sep (length sep - 1) r.
Proof. intros E. cbn [split_from]. rewrite E. reflexivity. Qed.

(** A text shorter than the separator is one piece. *)
Lemma split_short (s : jsstring) :
  length s < length sep -> split_from sep 0 s = [s].
Proof.
  induction s as [|c r IH]; intros L; auto.
  assert (E : startsWith sep (c :: r) = false).
  { destruct (startsWith sep (c :: r)) eqn:E; auto.
    apply startsWith_length in E; lia. }
  destruct (split_from_cons _ _ E) as (piece & pieces & R & ->).
  rewrite IH in R by (simpl in L; lia). inversion R; reflexivity.
Qed.

(** A text that splits into one piece is that piece. *)
Lemma split_single (s p : jsstring) : split_from sep 0 s = [p] -> p = s.
Proof.
  revert p; induction s as [|c r IH]; intros p.
  - simpl; congruence.
  - destruct (startsWith sep (c :: r)) eqn:E.
    + rewrite split_from_match by assumption. intros H; inversion H as [[H1 H2]].
      exfalso; exact (split_from_nonempty _ _ H2).
    + destruct (split_from_cons _ _ E) as (piece & pieces & R & ->).
      intros H; inversion H; subst. f_equal. apply IH; assumption.
Qed.

Lemma removelast_cons (A : Type) (x : A) (l : list A) :
  l <> [] -> removelast (x :: l) = x :: removelast l.
Proof. destruct l; simpl; congruence. Qed.

Lemma last_cons (A : Type) (x d : A) (l : list A) :
  l <> [] -> last (x :: l) d = last l d.
Proof. destruct l; simpl; congruence. Qed.

(** Splitting a text that grows: the pieces already complete stay, and the
    last piece is split again with what arrived. *)
Lemma split_from_app (s t : jsstring) (k : nat) :
  k <= length s ->
  split_from sep k (s ++ t) =
  removelast (split_from sep k s)
  ++ split_from sep 0 (last (split_from sep k s) [] ++ t).
Proof.
  revert k; induction s as [|c r IH]; intros k L.
  - simpl in L. replace k with 0 by lia. reflexivity.
  - destruct k as [|k].
    + destruct (startsWith sep (c :: r)) eqn:E.
      * rewrite split_from_match by assumption.
        change ((c :: r) ++ t) with (c :: (r ++ t)).
        rewrite split_from_match
          by (apply (startsWith_app _ (c :: r) t); assumption).
        rewrite removelast_cons, last_cons by apply split_from_nonempty.
        simpl. f_equal. apply IH.
        apply startsWith_length in E. simpl in E. lia.
      * destruct (split_from_cons _ _ E) as (piece & pieces & R & ->).
        destruct (startsWith sep ((c :: r) ++ t)) eqn:E'.
        -- pose proof (startsWith_late _ _ _ E E') as Short.
           pose proof (split_short (c :: r) Short) as One.
           destruct (split_from_cons _ _ E) as (q & qs & R' & One').
           rewrite One' in One. inversion One; subst.
           rewrite R' in R. inversion R; subst. reflexivity.
        -- change ((c :: r) ++ t) with (c :: (r ++ t)) in *.
           destruct (split_from_cons _ _ E') as (q & qs & R' & ->).
           rewrite (IH 0) in R' by lia. rewrite R in R'.
           destruct pieces as [|p2 pieces].
           ++ simpl in R'. simpl.
              apply split_single in R as ->.
              destruct (split_from_cons _ _ E') as (q' & qs' & R2 & R3).
              simpl in R3. rewrite R3.
              rewrite R2 in R'. inversion R'; reflexivity.
           ++ rewrite removelast_cons in R' by discriminate.
              rewrite last_cons in R' by discriminate.
              rewrite removelast_cons by discriminate.
              rewrite last_cons by discriminate.
              simpl in R'. inversion R'; subst. reflexivity.
    + simpl. apply IH. simpl in L. lia.
Qed.

Lemma split_app (s t : jsstring) :
  split sep (s ++ t) =
  removelast (split sep s) ++ split sep (last (split sep s) [] ++ t).
Proof. apply split_from_app; lia. Qed.

Lemma join_cons_head (c : N) (p : jsstring) (ps : list jsstring) :
  join sep ((c :: p) :: ps) = c :: join sep (p :: ps).
Proof. destruct ps; reflexivity. Qed.

(** The pieces, joined by the separator again, are the text: nothing is
    lost, repeated or changed. *)
Lemma join_split_from (s : jsstring) (k : nat) :
  sep <> [] -> k <= length s -> join sep (split_from sep k s) = skipn k s.
Proof.
  intros NE. revert k; induction s as [|c r IH]; intros k L.
  - simpl in L. replace k with 0 by lia. reflexivity.
  - destruct k as [|k]; [|simpl; apply IH; simpl in L; lia].
    destruct (startsWith sep (c :: r)) eqn:E.
    + rewrite split_from_match by assumption.
      pose proof (startsWith_length _ _ E) as Len.
      pose proof (startsWith_split _ _ E) as Eq.
      assert (Pos : 1 <= length sep) by (destruct sep; simpl; [congruence|lia]).
      destruct (split_from sep (length sep - 1) r) as [|q qs] eqn:Q;
        [exfalso; exact (split_from_nonempty _ _ Q)|].
      change (join sep ([] :: q :: qs)) with (sep ++ join sep (q :: qs)).
      rewrite <- Q, IH by (simpl in Len; lia).
      transitivity (sep ++ skipn (length sep) (c :: r));
        [|symmetry; exact Eq].
      f_equal. destruct (length sep) as [|n]; [lia|].
      simpl. rewrite Nat.sub_0_r. reflexivity.
    + destruct (split_from_cons _ _ E) as (piece & pieces & R & ->).
      rewrite join_cons_head, <- R, (IH 0) by lia. reflexivity.
Qed.

Lemma join_split (s : jsstring) : sep <> [] -> join sep (split sep s) = s.
Proof. intros NE. apply (join_split_from s NE (Nat.le_0_l _)). Qed.

(** A piece holds only code units of the text. *)
Lemma split_from_In (s piece : jsstring) (k : nat) (c : N) :
  In piece (split_from sep k s) -> In c piece -> In c s.
Proof.
  revert k piece; induction s as [|c0 r IH]; intros k piece.
  - simpl. intros [<-|[]] [].
  - destruct k as [|k]; [|simpl; intros H1 H2; right; eapply IH; eauto].
    destruct (startsWith sep (c0 :: r)) eqn:E.
    + rewrite split_from_match by assumption.
      intros [<-|H1] H2; [destruct H2|]. right; eapply IH; eauto.
    + destruct (split_from_cons _ _ E) as (q & qs & R & ->).
      intros [<-|H1] H2.
      * destruct H2 as [->|H2]; [left; reflexivity|].
        right. apply (IH 0 q); [rewrite R; left; reflexivity|assumption].
      * right. apply (IH 0 piece); [rewrite R; right|]; assumption.
Qed.

End StringFacts.

Lemma dropWhile_nil (p : N -> bool) (s : jsstring) :
  dropWhile p s = [] <-> forallb p s = true.
Proof.
  induction s as [|c r IH]; simpl; [tauto|].
  destruct (p c); simpl; [exact IH|]. split; discriminate.
Qed.

Lemma forallb_dropWhile (p : N -> bool) (s : jsstring) :
  forallb p (dropWhile p s) = true -> forallb p s = true.
Proof.
  induction s as [|c r IH]; simpl; auto.
  destruct (p c) eqn:E; simpl; auto. rewrite E; auto.
Qed.

(** [!s.trim()] holds exactly of the strings of white space. *)
Lemma trim_blank (s : jsstring) :
  falsy (trim s) = true <-> forallb is_whitespace s = true.
Proof.
  unfold trim. rewrite falsy_nil. split.
  - intros H. apply (f_equal (@rev N)) in H. rewrite rev_involutive in H.
    simpl in H. apply dropWhile_nil in H.
    apply forallb_dropWhile. rewrite forallb_forall in *.
    intros x Hx. apply H. apply in_rev in Hx. exact Hx.
  - intros H. apply dropWhile_nil in H. rewrite H. reflexivity.
Qed.


(* ================================================================== *)
(** * [JSON.parse] and ToString on examples *)
(* ================================================================== *)

Example parse_accepts :
  JSON.parse (lit " [1, -2.50e3, true, null, {}] ")
  = Some (JArray [JNumber {| negative := false; mantissa := 1; exponent := 0 |};
                  JNumber {| negative := true; mantissa := 250; exponent := 1 |};
                  JBool true; JNull; JObject []])
  /\ JSON.parse (lit "{" ++ quoted "a" ++ lit ":" ++ quoted "\u0041\n"
                 ++ lit "," ++ quoted "a" ++ lit ":[]}")
     = Some (JObject [(lit "a", JString [65; 10]%N); (lit "a", JArray [])])
  /\ JSON.parse (lit "null") = Some JNull.
Proof. vm_compute. repeat split. Qed.

Example parse_rejects :
  map JSON.parse
    [lit ""; lit "not-json"; lit "01"; lit "1."; lit ".5"; lit "+1"; lit "-";
     lit "[1,]"; lit "{,}"; lit "[1 2]"; lit "1 2"; lit "tru"; lit "nulll";
     lit "{" ++ quoted "a" ++ lit "}"; dq :: lit "a"; lit "{}}"]
  = repeat None 16.
Proof. vm_compute. reflexivity. Qed.

Example ToString_examples :
  ToString (JArray []) = Some []
  /\ ToString (JArray [JNull; JString (lit "a"); JArray [JBool true]])
     = Some (text_of (lit ",a,true"))
  /\ ToString (JObject [(lit "msg", JNull)])
     = Some (text_of (lit "[object Object]"))
  /\ ToString (JObject [(lit "toString", JNull)]) = None.
Proof. vm_compute. repeat split. Qed.

Example falsy_numbers :
  map (fun s => option_map truthy (JSON.parse (lit s)))
    ["0"; "-0.0"; "0e7"; "1e-400"; "1e-300"; "0.1"; "7"]%string
  = map Some [false; false; false; false; true; true; true].
Proof. vm_compute. reflexivity. Qed.

(* ================================================================== *)
(** * The frame parser *)
(* ================================================================== *)

Lemma last_default (A : Type) (x d : A) (l : list A) :
  last (x :: l) d = last l x.
Proof.
  revert x d; induction l as [|y l IH]; intros x d; [reflexivity|].
  change (last (x :: y :: l) d) with (last (y :: l) d).
  rewrite !IH. reflexivity.
Qed.

Lemma event_line_not_data (line : jsstring) :
  startsWith (lit "event: ") line = true ->
  startsWith (lit "data: ") line = false.
Proof.
  intros E. change (lit "event: ") with (ch "e" :: lit "vent: ") in E.
  apply startsWith_head in E as [r ->]. reflexivity.
Qed.

Lemma scan_lines (lines : list jsstring) (type data : jsstring) :
  fold_left scan_line lines (type, data) =
  (last (map (slice 7) (filter (startsWith (lit "event: ")) lines)) type,
   last (map (slice 6) (filter (startsWith (lit "data: ")) lines)) data).
Proof.
  revert type data; induction lines as [|l lines IH]; intros type data;
    [reflexivity|].
  cbn [fold_left filter]. unfold scan_line at 2.
  destruct (startsWith (lit "event: ") l) eqn:E.
  - rewrite (event_line_not_data _ E), IH.
    cbn [map]. rewrite last_default. reflexivity.
  - destruct (startsWith (lit "data: ") l) eqn:D; rewrite IH; [|reflexivity].
    cbn [map]. rewrite last_default. reflexivity.
Qed.

Lemma scan_unlabelled (lines : list jsstring) (acc : jsstring * jsstring) :
  fold_left scan_line lines acc =
  fold_left scan_line
    (filter (fun l => startsWith (lit "event: ") l
                      || startsWith (lit "data: ") l) lines) acc.
Proof.
  revert acc; induction lines as [|l lines IH]; intros acc; [reflexivity|].
  cbn [fold_left filter].
  destruct (startsWith (lit "event: ") l) eqn:E;
    [|destruct (startsWith (lit "data: ") l) eqn:D]; cbn [orb fold_left];
    rewrite IH; try reflexivity.
  unfold scan_line at 2. rewrite E, D. destruct acc; reflexivity.
Qed.

(** A frame with no data line has no data. *)
Lemma no_data_line (event : jsstring) :
  Forall (fun l => startsWith (lit "data: ") l = false) (split [nl] event) ->
  eventData event = [].
Proof.
  intros H. unfold eventData, scan_event. rewrite scan_lines. cbn [snd].
  induction H as [|l lines E _ IH]; [reflexivity|].
  cbn [filter]. rewrite E. exact IH.
Qed.

(** A frame of white space has no data line: the test on [event.trim()]
    drops nothing the test on [eventData] would keep. *)
Lemma blank_no_data (event : jsstring) :
  falsy (trim event) = true -> eventData event = [].
Proof.
  intros B. apply trim_blank in B. rewrite forallb_forall in B.
  apply no_data_line. apply Forall_forall. intros l In_l.
  destruct (startsWith (lit "data: ") l) eqn:D; [|reflexivity].
  change (lit "data: ") with (ch "d" :: lit "ata: ") in D.
  apply startsWith_head in D as [r ->].
  assert (W : is_whitespace (ch "d") = true).
  { apply B. eapply split_from_In; [exact In_l|left; reflexivity]. }
  discriminate.
Qed.

(* ================================================================== *)
(** * The dispatcher *)
(* ================================================================== *)

Section Dispatch.

Variable S : Type.
Variable cb : callbacks S.

(** [process_event], by the kind and the data of the frame. *)
Lemma process_event_scan (st : S) (event : jsstring) :
  process_event cb st event =
  if falsy (eventData event) then st
  else swallow (dispatch cb (eventType event) (eventData event) st).
Proof.
  unfold process_event. destruct (falsy (trim event)) eqn:B.
  - rewrite (blank_no_data _ B). reflexivity.
  - unfold eventData, eventType. destruct (scan_event event); reflexivity.
Qed.

Lemma process_events_app (st : S) (a b : list jsstring) :
  process_events cb st (a ++ b) = process_events cb (process_events cb st a) b.
Proof. apply fold_left_app. Qed.

End Dispatch.

(** The tests of [process_event], in the order the code makes them. *)
Ltac split_tests :=
  repeat match goal with
    | |- context [if ?b then _ else _] => destruct b
    | |- context [match JSON.parse ?d with _ => _ end] =>
        destruct (JSON.parse d)
    | |- context [match Get ?v ?k with _ => _ end] => destruct (Get v k)
    end.

Lemma record_event (log : list call) (event : jsstring) :
  process_event recorder log event = log ++ calls_of [event].
Proof.
  unfold calls_of, process_events. cbn [fold_left].
  rewrite !process_event_scan. unfold dispatch.
  split_tests; rewrite ?app_nil_r; reflexivity.
Qed.

Lemma record_events (log : list call) (events : list jsstring) :
  process_events recorder log events = log ++ calls_of events.
Proof.
  revert log; induction events as [|e events IH]; intros log.
  - unfold calls_of. simpl. rewrite app_nil_r. reflexivity.
  - unfold calls_of, process_events. cbn [fold_left].
    fold (process_events recorder (process_event recorder log e) events).
    fold (process_events recorder (process_event recorder [] e) events).
    rewrite !IH, (record_event log e), (record_event [] e), app_assoc.
    reflexivity.
Qed.

Lemma calls_of_app (a b : list jsstring) :
  calls_of (a ++ b) = calls_of a ++ calls_of b.
Proof.
  unfold calls_of at 1. rewrite process_events_app.
  fold (calls_of a). apply record_events.
Qed.

Lemma calls_of_cons (event : jsstring) (events : list jsstring) :
  calls_of (event :: events) = calls_of [event] ++ calls_of events.
Proof. apply (calls_of_app [event] events). Qed.

(** A frame leads to at most one call. *)
Lemma calls_of_one (event : jsstring) :
  calls_of [event] = [] \/ exists c, calls_of [event] = [c].
Proof.
  unfold calls_of, process_events. cbn [fold_left].
  rewrite process_event_scan. unfold dispatch.
  split_tests; (left; reflexivity) || (right; eexists; reflexivity).
Qed.

Section Handlers.

Variable S : Type.
Variable cb : callbacks S.

(** Whatever the callbacks are, they get the calls the recorder sees, and
    what they throw is dropped. *)
Lemma process_event_calls (st : S) (event : jsstring) :
  process_event cb st event =
  fold_left (fun s c => swallow (call_handler cb c s)) (calls_of [event]) st.
Proof.
  unfold calls_of, process_events. cbn [fold_left].
  rewrite !process_event_scan. unfold dispatch.
  split_tests; reflexivity.
Qed.

Lemma process_events_calls (st : S) (events : list jsstring) :
  process_events cb st events =
  fold_left (fun s c => swallow (call_handler cb c s)) (calls_of events) st.
Proof.
  revert st; induction events as [|e events IH]; intros st; [reflexivity|].
  rewrite calls_of_cons, fold_left_app, <- process_event_calls.
  unfold process_events. cbn [fold_left]. apply IH.
Qed.

Lemma read_loop_cons (buffer value : jsstring) (rest : list jsstring)
  (failure : option exn) (st : S) :
  read_loop cb buffer (value :: rest) failure st =
  read_loop cb (last (split [nl; nl] (buffer ++ value)) []) rest failure
    (process_events cb st (removelast (split [nl; nl] (buffer ++ value)))).
Proof. reflexivity. Qed.

(** The loop of reads processes the complete frames of the whole text. *)
Lemma read_loop_frames (rest : list jsstring) :
  forall (value buffer : jsstring) (failure : option exn) (st : S),
    read_loop cb buffer (value :: rest) failure st =
    finish failure
      (process_events cb st
         (removelast (split [nl; nl] (buffer ++ value ++ concat rest)))).
Proof.
  induction rest as [|v2 rest IH]; intros value buffer failure st.
  - rewrite read_loop_cons. cbn [read_loop concat]. rewrite app_nil_r.
    destruct failure; reflexivity.
  - rewrite read_loop_cons, IH. f_equal.
    cbn [concat]. rewrite (app_assoc buffer value).
    rewrite (split_app [nl; nl] (buffer ++ value) (v2 ++ concat rest)).
    rewrite removelast_app by apply split_from_nonempty.
    rewrite process_events_app. reflexivity.
Qed.

(** A stream that ends: the loop returns, having processed the complete
    frames of the text. *)
Lemma read_loop_returns (values : list jsstring) (st : S) :
  read_loop cb [] values None st =
  Normal (process_events cb st (removelast (split [nl; nl] (concat values)))).
Proof.
  destruct values as [|v vs]; [reflexivity|].
  rewrite read_loop_frames. reflexivity.
Qed.

End Handlers.

(* ================================================================== *)
(** * The frame buffer *)
(* ================================================================== *)

(** C2. However the text of the stream is cut into chunks, the loop of
    reads processes the same frames, once each and in order: the pieces of
    the whole text between blank lines, the piece after the last blank line
    left out (it stays in the buffer, which is dropped when the stream
    ends).  The pieces are the text itself: joined by blank lines again they
    give it back. *)
Theorem frames_independent_of_chunks
  (S : Type) (cb : callbacks S) (values : list jsstring) (st : S) :
  read_loop cb [] values None st =
    Normal (process_events cb st
              (removelast (split [nl; nl] (concat values))))
  /\ read_loop cb [] values None st = read_loop cb [] [concat values] None st
  /\ join [nl; nl] (split [nl; nl] (concat values)) = concat values.
Proof.
  split; [apply read_loop_returns|]. split.
  - rewrite (read_loop_returns cb values), (read_loop_returns cb [concat values]).
    cbn [concat]. rewrite app_nil_r. reflexivity.
  - apply join_split. discriminate.
Qed.

(** Scenario B of the specification: a frame cut in the middle of a line. *)
Example chunk_split_mid_frame :
  handleUpload
    (Wire.serve [lit "event: st"; skipn 9 (Wire.frame "step" Wire.step1)])
    Wire.pdf initial
  = handleUpload (Wire.serve [Wire.frame "step" Wire.step1]) Wire.pdf initial.
Proof. vm_compute. reflexivity. Qed.

(* ================================================================== *)
(** * The claims on the frame parser *)
(* ================================================================== *)

(** C7. The kind of a frame is what follows the label in its last line that
    begins with "event: ", its data what follows the label in its last line
    that begins with "data: "; each is the empty string when no line has the
    label, and lines with neither label change nothing. *)
Theorem frame_parser_last_wins (event : jsstring) :
  eventType event =
    last (map (slice 7)
            (filter (startsWith (lit "event: ")) (split [nl] event))) []
  /\ eventData event =
    last (map (slice 6)
            (filter (startsWith (lit "data: ")) (split [nl] event))) []
  /\ scan_event event =
    fold_left scan_line
      (filter (fun l => startsWith (lit "event: ") l
                        || startsWith (lit "data: ") l) (split [nl] event))
      ([], []).
Proof.
  unfold eventType, eventData, scan_event.
  split; [|split]; [| |apply scan_unlabelled]; rewrite scan_lines; reflexivity.
Qed.

Example last_label_wins :
  scan_event (lit "event: step" ++ [nl] ++ lit "data: 1" ++ [nl]
              ++ lit ": comment" ++ [nl] ++ lit "event: done" ++ [nl]
              ++ lit "data: 2")
  = (lit "done", lit "2").
Proof. reflexivity. Qed.

(* ================================================================== *)
(** * The claims on the dispatcher *)
(* ================================================================== *)

Lemma parse_nonempty (data : jsstring) (v : json) :
  JSON.parse data = Some v -> falsy data = false.
Proof. destruct data; [discriminate|reflexivity]. Qed.

Lemma eqb_neq (a b : jsstring) : a <> b -> eqb a b = false.
Proof.
  intros N. destruct (eqb a b) eqn:E; [|reflexivity].
  apply eqb_eq in E. contradiction.
Qed.

(** C4. A frame with no data line, with an empty data line, with data that
    is not JSON, or with a kind that is none of step, done and error leads
    to no call; it leaves the state of any caller, the upload page among
    them, as it was, and the frames after it are processed as if it had not
    come. *)
Theorem malformed_frame_dropped
  (S : Type) (cb : callbacks S) (st : S)
  (event : jsstring) (rest : list jsstring) :
  Forall (fun l => startsWith (lit "data: ") l = false) (split [nl] event)
  \/ eventData event = []
  \/ JSON.parse (eventData event) = None
  \/ (eventType event <> lit "step" /\ eventType event <> lit "done"
      /\ eventType event <> lit "error") ->
  calls_of [event] = []
  /\ process_event cb st event = st
  /\ process_events cb st (event :: rest) = process_events cb st rest
  /\ forall p : page, process_event page_callbacks p event = p.
Proof.
  intros H.
  assert (Calls : calls_of [event] = []).
  { unfold calls_of, process_events. cbn [fold_left].
    rewrite process_event_scan.
    destruct H as [H|[H|[H|(H1 & H2 & H3)]]].
    - rewrite (no_data_line _ H). reflexivity.
    - rewrite H. reflexivity.
    - destruct (falsy (eventData event)); [reflexivity|].
      unfold dispatch. rewrite H. reflexivity.
    - destruct (falsy (eventData event)); [reflexivity|].
      unfold dispatch. destruct (JSON.parse (eventData event)); [|reflexivity].
      rewrite !eqb_neq by assumption. reflexivity. }
  assert (Any : forall T (c : callbacks T) s, process_event c s event = s).
  { intros T c s. rewrite process_event_calls, Calls. reflexivity. }
  repeat split; auto.
  unfold process_events. cbn [fold_left]. rewrite Any. reflexivity.
Qed.

Lemma malformed_frame_dropped_witness :
  JSON.parse (eventData (Wire.event "step" (lit "not-json"))) = None
  /\ process_events page_callbacks initial
       [Wire.event "step" (lit "not-json"); Wire.event "done" Wire.done_abc]
     = process_events page_callbacks initial
         [Wire.event "done" Wire.done_abc].
Proof.
  assert (H : JSON.parse (eventData (Wire.event "step" (lit "not-json")))
              = None) by (vm_compute; reflexivity).
  split; [exact H|].
  apply (malformed_frame_dropped page_callbacks initial
           (Wire.event "step" (lit "not-json"))
           [Wire.event "done" Wire.done_abc]
           (or_intror (or_intror (or_introl H)))).
Defined.

(** C1, the counterexample: a done frame, then a step frame, then an error
    frame.  Three handlers fire, two of them terminal, and the progress log
    of the page grows after it has reached done. *)
Lemma terminal_then_more_calls :
  map is_terminal
    (calls_of [Wire.event "done" Wire.done_abc;
               Wire.event "step" Wire.step1;
               Wire.event "error" (lit "{}")])
  = [true; false; true]
  /\ state (handleUpload (Wire.serve [Wire.frame "done" Wire.done_abc])
              Wire.pdf initial) = done
  /\ length (steps (handleUpload (Wire.serve [Wire.frame "done" Wire.done_abc])
                      Wire.pdf initial)) = 0
  /\ state (handleUpload
              (Wire.serve [Wire.frame "done" Wire.done_abc;
                           Wire.frame "step" Wire.step1])
              Wire.pdf initial) = done
  /\ length (steps (handleUpload
                      (Wire.serve [Wire.frame "done" Wire.done_abc;
                                   Wire.frame "step" Wire.step1])
                      Wire.pdf initial)) = 1.
Proof. vm_compute. repeat split. Qed.

(** C1, as the code has it.  The dispatcher keeps no record of a terminal
    event: the frames after any others, terminal or not, lead to the calls
    they lead to on their own, at most one call a frame and in the order of
    the frames; every caller gets these calls; and the step callback of the
    page appends to the progress log in every lifecycle state, which it
    leaves as it is. *)
Theorem dispatch_keeps_no_terminal_state (before after : list jsstring) :
  calls_of (before ++ after) = calls_of before ++ calls_of after
  /\ (forall event, length (calls_of [event]) <= 1)
  /\ (forall (S : Type) (cb : callbacks S) (st : S),
        process_events cb st (before ++ after) =
        fold_left (fun s c => swallow (call_handler cb c s))
          (calls_of before ++ calls_of after) st)
  /\ (forall (step : json) (p : page),
        steps (page_onStep step p) = steps p ++ [step]
        /\ state (page_onStep step p) = state p).
Proof.
  split; [apply calls_of_app|]. split; [|split].
  - intros event. destruct (calls_of_one event) as [->|[c ->]]; simpl; lia.
  - intros S cb st. rewrite process_events_calls, calls_of_app. reflexivity.
  - intros step p. split; reflexivity.
Qed.

(** C3, the counterexample: a step frame whose data is the empty object.
    The step handler is called with it, and the page appends it to the
    progress log. *)
Lemma empty_object_step_delivered :
  calls_of [Wire.event "step" (lit "{}")] = [CallStep (JObject [])]
  /\ steps (handleUpload (Wire.serve [Wire.frame "step" (lit "{}")])
              Wire.pdf initial) = [JObject []].
Proof. vm_compute. split; reflexivity. Qed.

(** C3, as the code has it.  A frame of kind step or done whose data parses
    calls its handler with the parsed value as it is: the fields of the
    value are not looked at. *)
Theorem step_and_done_not_validated (event : jsstring) (parsed : json) :
  JSON.parse (eventData event) = Some parsed ->
  (eventType event = lit "step" ->
   calls_of [event] = [CallStep parsed]
   /\ forall p : page,
        process_event page_callbacks p event = page_onStep parsed p)
  /\ (eventType event = lit "done" ->
      calls_of [event] = [CallDone parsed]
      /\ forall p : page,
           process_event page_callbacks p event = page_onDone parsed p).
Proof.
  intros P. pose proof (parse_nonempty _ P) as NE.
  split; intros K.
  - assert (C : calls_of [event] = [CallStep parsed]).
    { unfold calls_of, process_events. cbn [fold_left].
      rewrite process_event_scan, NE. unfold dispatch. rewrite P, K.
      reflexivity. }
    split; [exact C|]. intros p. rewrite process_event_calls, C. reflexivity.
  - assert (C : calls_of [event] = [CallDone parsed]).
    { unfold calls_of, process_events. cbn [fold_left].
      rewrite process_event_scan, NE. unfold dispatch. rewrite P, K.
      reflexivity. }
    split; [exact C|]. intros p. rewrite process_event_calls, C. reflexivity.
Qed.

Lemma step_and_done_not_validated_witness :
  JSON.parse (eventData (Wire.event "step" (lit "{}"))) = Some (JObject [])
  /\ eventType (Wire.event "step" (lit "{}")) = lit "step"
  /\ calls_of [Wire.event "step" (lit "{}")] = [CallStep (JObject [])].
Proof.
  assert (P : JSON.parse (eventData (Wire.event "step" (lit "{}")))
              = Some (JObject [])) by (vm_compute; reflexivity).
  assert (K : eventType (Wire.event "step" (lit "{}")) = lit "step")
    by (vm_compute; reflexivity).
  split; [exact P|]. split; [exact K|].
  exact (proj1 (proj1 (step_and_done_not_validated _ P) K)).
Defined.

(** C5, the counterexample: an error frame whose data is [null].  The data
    parses, reading its [error] property throws, the exception is dropped
    with the frame: no handler is called and the page stays as it was,
    running. *)
Lemma null_error_payload_dropped :
  eventType (Wire.event "error" (lit "null")) = lit "error"
  /\ JSON.parse (eventData (Wire.event "error" (lit "null"))) = Some JNull
  /\ calls_of [Wire.event "error" (lit "null")] = []
  /\ state (handleUpload (Wire.serve [Wire.frame "error" (lit "null")])
              Wire.pdf initial) = agent_running.
Proof. vm_compute. repeat split. Qed.

Lemma Get_not_null (v : json) (key : jsstring) :
  v <> JNull -> exists field, Get v key = Some field.
Proof. destruct v; simpl; eauto. congruence. Qed.

Lemma or_else_truthy (field : option json) (fallback : json) :
  truthy fallback = true -> truthy (or_else field fallback) = true.
Proof.
  intros T. destruct field as [v|]; simpl; [|exact T].
  destruct (truthy v) eqn:E; assumption.
Qed.

(** C5, as the code has it.  A frame of kind error whose data parses to a
    value other than [null] calls the failure handler, with the [error]
    property of the value when that is truthy and with "Unknown error"
    otherwise, so when the property is absent or the empty string; the
    argument is never the empty string, and the page goes to the error state
    with it as its message. *)
Theorem error_event_fires_with_fallback (event : jsstring) (parsed : json) :
  eventType event = lit "error" ->
  JSON.parse (eventData event) = Some parsed ->
  parsed <> JNull ->
  exists field : option json,
    Get parsed (lit "error") = Some field
    /\ calls_of [event]
       = [CallError (or_else field (JString (lit "Unknown error")))]
    /\ is_empty_string (or_else field (JString (lit "Unknown error"))) = false
    /\ (field = None \/ field = Some (JString []) ->
        or_else field (JString (lit "Unknown error"))
        = JString (lit "Unknown error"))
    /\ forall p : page,
         process_event page_callbacks p event
         = page_onError (or_else field (JString (lit "Unknown error"))) p
         /\ state (process_event page_callbacks p event) = error
         /\ errorMessage (process_event page_callbacks p event)
            = Value (or_else field (JString (lit "Unknown error")))
         /\ steps (process_event page_callbacks p event) = steps p.
Proof.
  intros K P NN. pose proof (parse_nonempty _ P) as NE.
  destruct (Get_not_null (lit "error") NN) as [field G].
  exists field. split; [exact G|].
  assert (C : calls_of [event]
              = [CallError (or_else field (JString (lit "Unknown error")))]).
  { unfold calls_of, process_events. cbn [fold_left].
    rewrite process_event_scan, NE. unfold dispatch. rewrite P, K.
    change (eqb (lit "error") (lit "step")) with false.
    change (eqb (lit "error") (lit "done")) with false.
    change (eqb (lit "error") (lit "error")) with true.
    cbv iota. rewrite G. reflexivity. }
  split; [exact C|]. split; [|split].
  - assert (T : truthy (or_else field (JString (lit "Unknown error"))) = true)
      by (apply or_else_truthy; reflexivity).
    destruct (or_else field (JString (lit "Unknown error"))) as [| | |[|c r]| |];
      try reflexivity. discriminate.
  - intros [->| ->]; reflexivity.
  - intros p. rewrite process_event_calls, C. repeat split.
Qed.

(** Scenario E of the specification: an error frame with the empty object. *)
Lemma error_event_fires_with_fallback_witness :
  eventType (Wire.event "error" (lit "{}")) = lit "error"
  /\ JSON.parse (eventData (Wire.event "error" (lit "{}"))) = Some (JObject [])
  /\ JObject [] <> JNull
  /\ exists field : option json,
       Get (JObject []) (lit "error") = Some field
       /\ calls_of [Wire.event "error" (lit "{}")]
          = [CallError (or_else field (JString (lit "Unknown error")))].
Proof.
  assert (K : eventType (Wire.event "error" (lit "{}")) = lit "error")
    by (vm_compute; reflexivity).
  assert (P : JSON.parse (eventData (Wire.event "error" (lit "{}")))
              = Some (JObject [])) by (vm_compute; reflexivity).
  assert (NN : JObject [] <> JNull) by discriminate.
  split; [exact K|]. split; [exact P|]. split; [exact NN|].
  destruct (error_event_fires_with_fallback _ K P NN) as (field & G & C & _).
  exists field. split; assumption.
Defined.

Example empty_error_payload :
  let p := handleUpload (Wire.serve [Wire.frame "error" (lit "{}")])
             Wire.pdf initial in
  state p = error
  /\ errorMessage p = Value (JString (lit "Unknown error")).
Proof. vm_compute. split; reflexivity. Qed.

(** C10.  When the callback called for a frame throws, the exception is
    dropped with the frame and the frames after it are processed, from the
    state the callback left.  So it is for the whole call: when the frames of
    a stream are some frames, then the frame whose callback throws, then the
    rest, the loop of reads, and with it [uploadReportStreaming], goes on to
    process the rest and ends as the reader ends, with the state the rest
    leads to; what the callback threw is never what the call throws.  On a
    stream that ends the call returns and does not throw, whatever the
    callbacks do. *)
Theorem callback_exception_swallowed
  (S : Type) (cb : callbacks S) (st st' : S) (event : jsstring)
  (rest : list jsstring) (c : call) (e : exn) :
  calls_of [event] = [c] ->
  call_handler cb c st = Throw e st' ->
  process_event cb st event = st'
  /\ process_events cb st (event :: rest) = process_events cb st' rest
  /\ (forall (values before : list jsstring) (failure : option exn) (s0 : S),
        removelast (split [nl; nl] (concat values)) = before ++ event :: rest ->
        process_events cb s0 before = st ->
        read_loop cb [] values failure s0
        = finish failure (process_events cb st' rest))
  /\ (forall (fetch : network) (file : File) (prefs : list jsstring)
             (res : Response) (r : reader) (before : list jsstring) (s0 : S),
        fetch (formData file prefs) = Resolved res ->
        ok res = true -> body res = Some r ->
        removelast (split [nl; nl] (concat (chunks r)))
        = before ++ event :: rest ->
        process_events cb s0 before = st ->
        uploadReportStreaming cb fetch file prefs s0
        = finish (failure r) (process_events cb st' rest))
  /\ (forall (values : list jsstring) (s0 : S),
        exists s1, read_loop cb [] values None s0 = Normal s1)
  /\ (forall (fetch : network) (file : File) (prefs : list jsstring)
             (res : Response) (r : reader) (s0 : S),
        fetch (formData file prefs) = Resolved res ->
        ok res = true -> body res = Some r -> failure r = None ->
        exists s1, uploadReportStreaming cb fetch file prefs s0 = Normal s1).
Proof.
  intros C T.
  assert (One : process_event cb st event = st').
  { rewrite process_event_calls, C. cbn [fold_left]. rewrite T. reflexivity. }
  assert (Loop : forall (values before : list jsstring) (failure : option exn)
                        (s0 : S),
             removelast (split [nl; nl] (concat values))
             = before ++ event :: rest ->
             process_events cb s0 before = st ->
             read_loop cb [] values failure s0
             = finish failure (process_events cb st' rest)).
  { intros values before failure s0 Fr Pb.
    destruct values as [|v vs].
    - cbn in Fr. apply app_cons_not_nil in Fr. contradiction.
    - rewrite read_loop_frames. cbn [app].
      change (v ++ concat vs) with (concat (v :: vs)).
      rewrite Fr, process_events_app, Pb. unfold process_events at 1.
      cbn [fold_left]. rewrite One. reflexivity. }
  split; [exact One|]. split; [|split; [exact Loop|split; [|split]]].
  - unfold process_events. cbn [fold_left]. rewrite One. reflexivity.
  - intros fetch file prefs res r before s0 F O B Fr Pb.
    unfold uploadReportStreaming. rewrite F, O, B. cbn [negb].
    apply (Loop _ before); assumption.
  - intros values s0. eexists. apply read_loop_returns.
  - intros fetch file prefs res r s0 F O B E.
    unfold uploadReportStreaming. rewrite F, O, B, E. cbn [negb].
    eexists. apply read_loop_returns.
Qed.

(** Two step frames on callbacks that throw at every step: the second frame
    is processed after the first has thrown, and the call returns. *)
Lemma callback_exception_swallowed_witness :
  calls_of [Wire.event "step" (lit "{}")] = [CallStep (JObject [])]
  /\ call_handler Wire.thrower (CallStep (JObject [])) 0
     = Throw BuiltinError 1
  /\ process_events Wire.thrower 0
       [Wire.event "step" (lit "{}"); Wire.event "step" (lit "{}")]
     = process_events Wire.thrower 1 [Wire.event "step" (lit "{}")]
  /\ uploadReportStreaming Wire.thrower
       (Wire.serve [Wire.frame "step" (lit "{}"); Wire.frame "step" (lit "{}")])
       Wire.pdf [] 0
     = Normal 2.
Proof.
  assert (C : calls_of [Wire.event "step" (lit "{}")] = [CallStep (JObject [])])
    by (vm_compute; reflexivity).
  assert (T : call_handler Wire.thrower (CallStep (JObject [])) 0
              = Throw BuiltinError 1) by reflexivity.
  split; [exact C|]. split; [exact T|].
  pose proof (@callback_exception_swallowed nat Wire.thrower 0 1
                (Wire.event "step" (lit "{}"))
                [Wire.event "step" (lit "{}")]
                (CallStep (JObject [])) BuiltinError C T) as (_ & H2 & _ & H4 & _).
  split; [exact H2|].
  exact (H4 (Wire.serve [Wire.frame "step" (lit "{}");
                         Wire.frame "step" (lit "{}")])
            Wire.pdf []
            {| ok := true; json_body := None;
               body := Some {| chunks := [Wire.frame "step" (lit "{}");
                                          Wire.frame "step" (lit "{}")];
                               failure := None |} |}
            {| chunks := [Wire.frame "step" (lit "{}");
                          Wire.frame "step" (lit "{}")];
               failure := None |}
            [] 0 eq_refl eq_refl eq_refl eq_refl eq_refl).
Defined.

Example thrown_steps_all_counted :
  read_loop Wire.thrower []
    [Wire.frame "step" (lit "{}"); Wire.frame "step" (lit "{}")] None 0
  = Normal 2.
Proof. vm_compute. reflexivity. Qed.

(* ================================================================== *)
(** * The claims on the upload page *)
(* ================================================================== *)

(** C6, the counterexample: a non-success answer whose body is
    {"detail": []}.  The detail is truthy, so it is not replaced by the
    fallback, and its string form, which becomes the message, is empty. *)
Lemma empty_detail_empty_message :
  JSON.parse Wire.empty_detail = Some (JObject [(lit "detail", JArray [])])
  /\ state (handleUpload (Wire.refuse (JSON.parse Wire.empty_detail))
              Wire.pdf initial) = error
  /\ errorMessage (handleUpload (Wire.refuse (JSON.parse Wire.empty_detail))
                     Wire.pdf initial) = Text [].
Proof. vm_compute. repeat split. Qed.

Lemma Error_is_Error (v : json) : instance_of_Error (Error v) = true.
Proof. unfold Error. destruct (ToString v); reflexivity. Qed.

Lemma caught_Error (v : json) (p : page) :
  errorMessage (caught (Error v) p) = Text (message (Error v)).
Proof.
  unfold caught. cbn [errorMessage setState setErrorMessage].
  rewrite Error_is_Error. reflexivity.
Qed.

(** C6, as the code has it.  When the answer has a non-success status, or
    has no body to read, the attempt ends in the error state with an empty
    progress log.  With no body the message is "Streaming not supported".
    With a non-success status there are two cases.  When the body of the
    answer is the JSON value null, and only then, reading its detail throws,
    and the message is that of the TypeError of the engine.  In every other
    case the message is that of the error made from the detail of the answer
    when that is truthy and from "Upload failed" otherwise (so "Upload
    failed" when the body is no JSON); it begins with a character, so is not
    empty, when the detail is absent, falsy or a string. *)
Theorem transport_failure_is_error
  (fetch : network) (selectedFile : File) (p : page) (res : Response) :
  fetch (formData selectedFile (preferences p)) = Resolved res ->
  ok res = false \/ body res = None ->
  state (handleUpload fetch selectedFile p) = error
  /\ length (steps (handleUpload fetch selectedFile p)) = 0
  /\ (ok res = true ->
      errorMessage (handleUpload fetch selectedFile p)
      = Text (text_of (lit "Streaming not supported")))
  /\ (ok res = false ->
      (forall detail : option json,
         Get (error_body res) (lit "detail") = Some detail ->
         errorMessage (handleUpload fetch selectedFile p)
         = Text (message (Error (or_else detail (JString (lit "Upload failed")))))
         /\ (detail = None
             \/ (exists d, detail = Some d /\ truthy d = false) ->
             errorMessage (handleUpload fetch selectedFile p)
             = Text (text_of (lit "Upload failed")))
         /\ (forall s : jsstring,
               detail = Some (JString s) -> s <> [] ->
               errorMessage (handleUpload fetch selectedFile p)
               = Text (text_of s))
         /\ (detail = None
             \/ (exists d, detail = Some d
                           /\ (truthy d = false \/ exists s, d = JString s)) ->
             exists (c : N) (rest : text),
               errorMessage (handleUpload fetch selectedFile p)
               = Text (Chr c :: rest)))
      /\ (Get (error_body res) (lit "detail") = None
          <-> json_body res = Some JNull)
      /\ (json_body res = Some JNull ->
          errorMessage (handleUpload fetch selectedFile p)
          = Text (message BuiltinError))
      /\ (json_body res = None ->
          errorMessage (handleUpload fetch selectedFile p)
          = Text (text_of (lit "Upload failed")))).
Proof.
  intros F Fail. unfold handleUpload, uploadReportStreaming.
  change (preferences (setState agent_running (begin_upload selectedFile p)))
    with (preferences p).
  rewrite F. destruct (ok res) eqn:O; cbn [negb].
  - destruct Fail as [Fail|B]; [discriminate|]. rewrite B.
    split; [reflexivity|]. split; [reflexivity|].
    split; [reflexivity|discriminate].
  - assert (Null : Get (error_body res) (lit "detail") = None
                   <-> json_body res = Some JNull).
    { unfold error_body. destruct (json_body res) as [[]|]; cbn;
        split; intros E; try reflexivity; discriminate. }
    destruct (Get (error_body res) (lit "detail")) as [detail|] eqn:G.
    + split; [reflexivity|]. split; [reflexivity|]. split; [discriminate|].
      intros _. split; [|split; [exact Null|split]].
      * intros d' E. inversion E; subst d'. clear E.
        rewrite caught_Error. split; [reflexivity|]. split; [|split].
        -- intros [->|(d & -> & T)]; [reflexivity|].
           cbn [or_else]. rewrite T. reflexivity.
        -- intros s E NE. inversion E; subst detail.
           destruct s as [|c s]; [congruence|]. reflexivity.
        -- intros H. destruct H as [->|(d & -> & [T|[s ->]])].
           ++ eexists _, _. reflexivity.
           ++ cbn [or_else]. rewrite T. eexists _, _. reflexivity.
           ++ destruct s as [|c s]; eexists _, _; reflexivity.
      * intros B. apply Null in B. discriminate.
      * intros B. unfold error_body in G. rewrite B in G. cbn in G.
        inversion G; subst detail. reflexivity.
    + split; [reflexivity|]. split; [reflexivity|]. split; [discriminate|].
      intros _. split; [discriminate|]. split; [exact Null|]. split.
      * intros _. reflexivity.
      * intros B. pose proof (proj1 Null eq_refl) as B'. rewrite B in B'.
        discriminate.
Qed.

(** Scenario D of the specification: a non-success status. *)
Lemma transport_failure_is_error_witness :
  Wire.refuse None (formData Wire.pdf (preferences initial))
  = Resolved Wire.failed
  /\ (ok Wire.failed = false \/ body Wire.failed = None)
  /\ state (handleUpload (Wire.refuse None) Wire.pdf initial) = error
  /\ length (steps (handleUpload (Wire.refuse None) Wire.pdf initial)) = 0.
Proof.
  split; [reflexivity|]. split; [left; reflexivity|].
  destruct (@transport_failure_is_error (Wire.refuse None) Wire.pdf initial
              Wire.failed eq_refl (or_introl eq_refl)) as (H1 & H2 & _).
  split; assumption.
Defined.

(** A non-success answer whose body is the JSON value null: the message is
    the one the engine gives its TypeError. *)
Example refused_with_null_body :
  JSON.parse (lit "null") = Some JNull
  /\ state (handleUpload (Wire.refuse (JSON.parse (lit "null")))
              Wire.pdf initial) = error
  /\ errorMessage (handleUpload (Wire.refuse (JSON.parse (lit "null")))
                     Wire.pdf initial) = Text [EngineText].
Proof. vm_compute. repeat split. Qed.

Example refused_upload_messages :
  errorMessage (handleUpload (Wire.refuse None) Wire.pdf initial)
  = Text (text_of (lit "Upload failed"))
  /\ errorMessage
       (handleUpload
          (Wire.refuse (Some (JObject [(lit "detail", JString (lit "Bad PDF"))])))
          Wire.pdf initial)
     = Text (text_of (lit "Bad PDF"))
  /\ errorMessage
       (handleUpload
          (fun _ => Resolved {| ok := true; json_body := None; body := None |})
          Wire.pdf initial)
     = Text (text_of (lit "Streaming not supported")).
Proof. vm_compute. repeat split. Qed.

Lemma begin_upload_forgets (selectedFile : File) (p q : page) :
  preferences p = preferences q -> dragOver p = dragOver q ->
  begin_upload selectedFile p = begin_upload selectedFile q.
Proof.
  intros P D. unfold begin_upload, setErrorMessage, setDoneResult, setSteps,
    setState, setFile. cbn. rewrite P, D. reflexivity.
Qed.

Lemma handleUpload_forgets (fetch : network) (selectedFile : File)
  (p q : page) :
  preferences p = preferences q -> dragOver p = dragOver q ->
  handleUpload fetch selectedFile p = handleUpload fetch selectedFile q.
Proof.
  intros P D. unfold handleUpload.
  rewrite (begin_upload_forgets selectedFile p q P D). reflexivity.
Qed.

(** C8.  [reset] puts the session back where the component starts it: idle,
    no file, an empty progress log, no result, no message, from every state
    and so from done and from error; the page is the first page again but
    for the dietary preferences and the drag flag, which are no part of the
    session.  A new attempt clears the log, the result and the message
    before the stream is opened, so before any of its events is processed,
    and it runs as it would from a page just reset: nothing of the attempt
    before it is left. *)
Theorem reset_restores_session (p : page) :
  session (reset p) = session initial
  /\ reset p = setPreferences (preferences p) (setDragOver (dragOver p) initial)
  /\ (forall selectedFile : File,
        state (begin_upload selectedFile p) = uploading
        /\ file (begin_upload selectedFile p) = Some selectedFile
        /\ steps (begin_upload selectedFile p) = []
        /\ doneResult (begin_upload selectedFile p) = None
        /\ errorMessage (begin_upload selectedFile p) = Text [])
  /\ (forall (fetch : network) (selectedFile : File),
        handleUpload fetch selectedFile p =
        match
          uploadReportStreaming page_callbacks fetch selectedFile
            (preferences p)
            (setState agent_running (begin_upload selectedFile p))
        with
        | Normal p' => p'
        | Throw err p' => caught err p'
        end)
  /\ (forall (fetch : network) (selectedFile : File),
        handleUpload fetch selectedFile p
        = handleUpload fetch selectedFile (reset p)).
Proof.
  split; [reflexivity|]. split; [reflexivity|].
  split; [intros f; repeat split|]. split; [reflexivity|].
  intros fetch f. apply handleUpload_forgets; reflexivity.
Qed.

Example reset_after_error :
  reset (handleUpload (Wire.serve [Wire.frame "step" Wire.step1;
                                   Wire.frame "error" (lit "{}")])
           Wire.pdf initial)
  = initial.
Proof. vm_compute. reflexivity. Qed.

(** C9.  Every change of the state that takes the page into the error
    state, the failure callback or the catch of a failed transport, leaves
    the progress log as it was, and the file, the result, the preferences
    and the drag flag with it: only the lifecycle state and the message
    change.  A change that empties a log that was not empty is [reset] or the
    start of a new attempt. *)
Theorem error_transition_keeps_log :
  (forall (a : action) (p : page),
     state p <> error -> state (act a p) = error ->
     ((exists message, a = OnError message) \/ (exists err, a = Caught err))
     /\ steps (act a p) = steps p
     /\ file (act a p) = file p
     /\ doneResult (act a p) = doneResult p
     /\ preferences (act a p) = preferences p
     /\ dragOver (act a p) = dragOver p)
  /\ (forall (a : action) (p : page),
        steps p <> [] -> steps (act a p) = [] ->
        a = DoReset \/ exists selectedFile, a = BeginUpload selectedFile)
  /\ (forall (fetch : network) (selectedFile : File) (p p' : page) (err : exn),
        uploadReportStreaming page_callbacks fetch selectedFile (preferences p)
          (setState agent_running (begin_upload selectedFile p))
        = Throw err p' ->
        handleUpload fetch selectedFile p = caught err p'
        /\ steps (handleUpload fetch selectedFile p) = steps p').
Proof.
  split; [|split].
  - intros a p NE E. destruct a; cbn in E; try discriminate; try contradiction.
    + repeat split. left; eauto.
    + repeat split. right; eauto.
  - intros a p NE E. destruct a; cbn in E; try contradiction; eauto.
    destruct (steps p); [contradiction|discriminate].
  - intros fetch selectedFile p p' err T. unfold handleUpload.
    change (preferences (setState agent_running (begin_upload selectedFile p)))
      with (preferences p).
    rewrite T. split; reflexivity.
Qed.

Lemma error_transition_keeps_log_witness :
  state (page_onStep (JObject []) initial) <> error
  /\ state (act (OnError (JString (lit "boom")))
              (page_onStep (JObject []) initial)) = error
  /\ steps (act (OnError (JString (lit "boom")))
              (page_onStep (JObject []) initial))
     = steps (page_onStep (JObject []) initial).
Proof.
  assert (NE : state (page_onStep (JObject []) initial) <> error)
    by discriminate.
  split; [exact NE|]. split; [reflexivity|].
  exact (proj1 (proj2 (proj1 error_transition_keeps_log
                         (OnError (JString (lit "boom")))
                         (page_onStep (JObject []) initial) NE eq_refl))).
Defined.

Example partial_log_kept_on_error :
  steps (handleUpload
           (Wire.serve [Wire.frame "step" Wire.step1;
                        Wire.frame "error" (lit "{}")])
           Wire.pdf initial)
  = steps (handleUpload (Wire.serve [Wire.frame "step" Wire.step1])
             Wire.pdf initial).
Proof. vm_compute. reflexivity. Qed.

(** Scenarios A and C of the specification. *)
Example scenario_done :
  state (handleUpload
           (Wire.serve [Wire.frame "step" Wire.step1;
                        Wire.frame "done" Wire.done_abc])
           Wire.pdf initial) = done
  /\ length (steps (handleUpload
                      (Wire.serve [Wire.frame "step" Wire.step1;
                                   Wire.frame "done" Wire.done_abc])
                      Wire.pdf initial)) = 1
  /\ doneResult (handleUpload
                   (Wire.serve [Wire.frame "step" Wire.step1;
                                Wire.frame "done" Wire.done_abc])
                   Wire.pdf initial)
     = JSON.parse Wire.done_abc.
Proof. vm_compute. repeat split. Qed.

Example scenario_malformed_step :
  state (handleUpload
           (Wire.serve [Wire.frame "step" (lit "not-json");
                        Wire.frame "done" Wire.done_abc])
           Wire.pdf initial) = done
  /\ length (steps (handleUpload
                      (Wire.serve [Wire.frame "step" (lit "not-json");
                                   Wire.frame "done" Wire.done_abc])
                      Wire.pdf initial)) = 0.
Proof. vm_compute. split; reflexivity. Qed.

(* ================================================================== *)
(** * The preference selector *)
(* ================================================================== *)

Lemma includes_In (x : jsstring) (l : list jsstring) :
  Selector.includes x l = true <-> In x l.
Proof.
  induction l as [|y l IH]; simpl; [split; [discriminate|tauto]|].
  rewrite orb_true_iff, eqb_eq, IH. tauto.
Qed.

Lemma includes_app (x : jsstring) (a b : list jsstring) :
  Selector.includes x (a ++ b) = Selector.includes x a || Selector.includes x b.
Proof.
  induction a as [|y a IH]; simpl; [reflexivity|].
  rewrite IH, orb_assoc. reflexivity.
Qed.

Lemma includes_filter_same (x : jsstring) (l : list jsstring) :
  Selector.includes x (filter (fun s => negb (eqb s x)) l) = false.
Proof.
  induction l as [|y l IH]; simpl; [reflexivity|].
  destruct (eqb y x) eqn:E; simpl; [exact IH|]. rewrite E. exact IH.
Qed.

Lemma includes_filter_other (x other : jsstring) (l : list jsstring) :
  other <> x ->
  Selector.includes other (filter (fun s => negb (eqb s x)) l)
  = Selector.includes other l.
Proof.
  intros NE. induction l as [|y l IH]; simpl; [reflexivity|].
  destruct (eqb y x) eqn:E; simpl; [|rewrite IH; reflexivity].
  apply eqb_eq in E. subst y. rewrite (eqb_neq (not_eq_sym NE)). exact IH.
Qed.

Lemma filter_absent (x : jsstring) (l : list jsstring) :
  Selector.includes x l = false -> filter (fun s => negb (eqb s x)) l = l.
Proof.
  induction l as [|y l IH]; simpl; [reflexivity|].
  rewrite orb_false_iff. intros [E H]. rewrite E. simpl. f_equal. auto.
Qed.

Lemma toggle_flips_one_helper (selected : list jsstring) (id : jsstring) :
  Selector.includes id (Selector.toggle selected id)
  = negb (Selector.includes id selected)
  /\ forall other, other <> id ->
       Selector.includes other (Selector.toggle selected id)
       = Selector.includes other selected.
Proof.
  unfold Selector.toggle.
  destruct (Selector.includes id selected) eqn:I; split.
  - apply includes_filter_same.
  - intros other. apply includes_filter_other.
  - rewrite includes_app, I. simpl. rewrite eqb_eq_refl. reflexivity.
  - intros other NE. rewrite includes_app. simpl.
    rewrite (eqb_neq (not_eq_sym NE)), !orb_false_r. reflexivity.
Qed.

(** X1.  A click on a button of the selector changes whether its id is
    selected and nothing else: every other id is selected after the click
    exactly when it was before. *)
Theorem toggle_flips_one (selected : list jsstring) (id other : jsstring) :
  Selector.includes id (Selector.toggle selected id)
  = negb (Selector.includes id selected)
  /\ (other <> id ->
      Selector.includes other (Selector.toggle selected id)
      = Selector.includes other selected).
Proof.
  destruct (toggle_flips_one_helper selected id) as [H1 H2].
  split; [exact H1|apply H2].
Qed.

Lemma toggle_NoDup (selected : list jsstring) (id : jsstring) :
  NoDup selected -> NoDup (Selector.toggle selected id).
Proof.
  intros ND. unfold Selector.toggle.
  destruct (Selector.includes id selected) eqn:I.
  - apply NoDup_filter. exact ND.
  - apply NoDup_app; [exact ND|repeat constructor; intros []|].
    intros x Hx [<-|[]]. apply includes_In in Hx. congruence.
Qed.

Lemma toggle_In (selected : list jsstring) (id x : jsstring) :
  In x (Selector.toggle selected id) -> In x selected \/ x = id.
Proof.
  unfold Selector.toggle. destruct (Selector.includes id selected).
  - intros H. apply filter_In in H. tauto.
  - intros H. apply in_app_or in H. simpl in H. intuition.
Qed.

Lemma clicks_includes (ids selected : list jsstring) (x : jsstring) :
  Selector.includes x (Selector.clicks ids selected)
  = xorb (Selector.includes x selected)
      (Nat.odd (length (filter (fun i => eqb i x) ids))).
Proof.
  revert selected; induction ids as [|i ids IH]; intros selected.
  - simpl. rewrite xorb_false_r. reflexivity.
  - unfold Selector.clicks in *. cbn [fold_left filter]. rewrite IH.
    destruct (eqb i x) eqn:E.
    + apply eqb_eq in E. subst i.
      rewrite (proj1 (toggle_flips_one_helper selected x)).
      cbn [length]. rewrite Nat.odd_succ, <- Nat.negb_odd.
      destruct (Selector.includes x selected), (Nat.odd _); reflexivity.
    + assert (NE : x <> i) by (intros ->; rewrite eqb_eq_refl in E; discriminate).
      rewrite (proj2 (toggle_flips_one_helper selected i) x NE). reflexivity.
Qed.

Lemma clicks_NoDup (ids selected : list jsstring) :
  NoDup selected -> NoDup (Selector.clicks ids selected).
Proof.
  revert selected; induction ids as [|i ids IH]; intros selected ND;
    [exact ND|].
  apply IH, toggle_NoDup, ND.
Qed.

Lemma clicks_In (ids selected : list jsstring) (x : jsstring) :
  In x (Selector.clicks ids selected) -> In x selected \/ In x ids.
Proof.
  revert selected; induction ids as [|i ids IH]; intros selected H;
    [left; exact H|].
  apply IH in H. destruct H as [H|H]; [|right; right; exact H].
  apply toggle_In in H. destruct H as [H| ->]; [left; exact H|].
  right; left; reflexivity.
Qed.

(** X2.  After any clicks on the buttons, starting with nothing selected,
    no id is selected twice, the ids selected are ids that were clicked, and
    an id is selected exactly when it was clicked an odd number of times. *)
Theorem clicks_select_odd (ids : list jsstring) :
  NoDup (Selector.clicks ids [])
  /\ Forall (fun x => In x ids) (Selector.clicks ids [])
  /\ forall x : jsstring,
       Selector.includes x (Selector.clicks ids [])
       = Nat.odd (length (filter (fun i => eqb i x) ids)).
Proof.
  split; [apply clicks_NoDup; constructor|]. split.
  - apply Forall_forall. intros x H. apply clicks_In in H.
    destruct H as [[]|H]. exact H.
  - intros x. rewrite clicks_includes. reflexivity.
Qed.

(** X3.  A second click on the same button gives the selection back when
    the id was not selected; when it was, the id is selected again but has
    moved to the end of the list. *)
Theorem toggle_twice (selected : list jsstring) (id : jsstring) :
  Selector.toggle (Selector.toggle selected id) id
  = if Selector.includes id selected
    then filter (fun s => negb (eqb s id)) selected ++ [id]
    else selected.
Proof.
  unfold Selector.toggle at 1.
  rewrite (proj1 (toggle_flips_one_helper selected id)).
  unfold Selector.toggle.
  destruct (Selector.includes id selected) eqn:I; cbn [negb].
  - reflexivity.
  - rewrite filter_app, (filter_absent _ _ I). simpl.
    rewrite eqb_eq_refl. simpl. apply app_nil_r.
Qed.

(* ================================================================== *)
(** * The preferences in the request *)
(* ================================================================== *)

Lemma startsWith_one (c x : N) (r : jsstring) :
  startsWith [c] (x :: r) = N.eqb c x.
Proof. simpl. apply andb_true_r. Qed.

Lemma split_char_none (c : N) (p : jsstring) :
  ~ In c p -> split [c] p = [p].
Proof.
  unfold split. induction p as [|x p IH]; intros NI; [reflexivity|].
  assert (E : startsWith [c] (x :: p) = false).
  { rewrite startsWith_one. apply N.eqb_neq. intros ->. apply NI. left.
    reflexivity. }
  destruct (split_from_cons _ _ _ E) as (q & qs & R & ->).
  rewrite IH in R by (intros H; apply NI; right; exact H).
  inversion R. reflexivity.
Qed.

Lemma split_char_cons (c : N) (p r : jsstring) :
  ~ In c p -> split [c] (p ++ c :: r) = p :: split [c] r.
Proof.
  unfold split. induction p as [|x p IH]; intros NI.
  - simpl app. rewrite split_from_match
      by (rewrite startsWith_one; apply N.eqb_refl).
    reflexivity.
  - assert (E : startsWith [c] ((x :: p) ++ c :: r) = false).
    { simpl app. rewrite startsWith_one. apply N.eqb_neq. intros ->.
      apply NI. left. reflexivity. }
    simpl app in *.
    destruct (split_from_cons _ _ _ E) as (q & qs & R & ->).
    rewrite IH in R by (intros H; apply NI; right; exact H).
    inversion R. reflexivity.
Qed.

(** Pieces without the separating character come back from their join. *)
Lemma split_join_char (c : N) (ps : list jsstring) :
  ps <> [] -> Forall (fun p => ~ In c p) ps ->
  split [c] (join [c] ps) = ps.
Proof.
  induction ps as [|p ps IH]; [congruence|]. intros _ F.
  inversion F as [|? ? NI F']; subst.
  destruct ps as [|q ps].
  - simpl. apply split_char_none, NI.
  - change (join [c] (p :: q :: ps)) with (p ++ c :: join [c] (q :: ps)).
    rewrite split_char_cons by exact NI.
    rewrite IH by (discriminate || exact F'). reflexivity.
Qed.

(** X4.  The preferences are sent as one field, joined by commas, and not
    at all when there are none.  When no preference holds a comma, the
    field, cut at its commas, is the list of preferences again: none is lost,
    merged or reordered. *)
Theorem preferences_field_round_trip (file : File) (prefs : list jsstring) :
  Forall (fun s => ~ In (ch ",") s) prefs ->
  match dietary_preferences (formData file prefs) with
  | None => prefs = []
  | Some field => prefs <> [] /\ split (lit ",") field = prefs
  end.
Proof.
  intros F. destruct prefs as [|p ps]; [reflexivity|].
  cbn [formData dietary_preferences]. split; [discriminate|].
  apply (split_join_char (ch ",")); [discriminate|exact F].
Qed.

Lemma offered_without_comma :
  Forall (fun s => ~ In (ch ",") s) Selector.offered.
Proof.
  repeat constructor; intros H; vm_compute in H;
    repeat (destruct H as [H|H]; [discriminate|]); exact H.
Defined.

Lemma preferences_field_round_trip_witness :
  Forall (fun s => ~ In (ch ",") s) Selector.offered
  /\ dietary_preferences (formData Wire.pdf Selector.offered)
     = Some (lit "vegan,vegetarian,lactose-free,gluten-free,nut-free")
  /\ split (lit ",")
       (lit "vegan,vegetarian,lactose-free,gluten-free,nut-free")
     = Selector.offered.
Proof.
  split; [exact offered_without_comma|]. split; [reflexivity|].
  exact (proj2 (preferences_field_round_trip Wire.pdf offered_without_comma)).
Defined.

(** X5.  Whatever buttons of the selector are clicked, in whatever order
    and however often, the request names each selected preference once: its
    field, cut at its commas, is the selection, and there is no field exactly
    when nothing is selected. *)
Theorem clicked_preferences_sent (file : File) (ids : list jsstring) :
  Forall (fun id => In id Selector.offered) ids ->
  NoDup (Selector.clicks ids [])
  /\ match dietary_preferences (formData file (Selector.clicks ids [])) with
     | None => Selector.clicks ids [] = []
     | Some field =>
         Selector.clicks ids [] <> []
         /\ split (lit ",") field = Selector.clicks ids []
     end.
Proof.
  intros Off. split; [apply clicks_NoDup; constructor|].
  assert (F : Forall (fun s => ~ In (ch ",") s) (Selector.clicks ids [])).
  { apply Forall_forall. intros x H. apply clicks_In in H.
    destruct H as [[]|H].
    rewrite Forall_forall in Off. apply Off in H.
    pose proof offered_without_comma as W. rewrite Forall_forall in W.
    apply W, H. }
  destruct (Selector.clicks ids []) as [|p ps]; [reflexivity|].
  cbn [formData dietary_preferences]. split; [discriminate|].
  apply (split_join_char (ch ",")); [discriminate|exact F].
Qed.

Lemma clicked_preferences_sent_witness :
  Forall (fun id => In id Selector.offered)
    [lit "vegan"; lit "nut-free"; lit "vegan"; lit "gluten-free"]
  /\ dietary_preferences
       (formData Wire.pdf
          (Selector.clicks
             [lit "vegan"; lit "nut-free"; lit "vegan"; lit "gluten-free"] []))
     = Some (lit "nut-free,gluten-free")
  /\ NoDup (Selector.clicks
              [lit "vegan"; lit "nut-free"; lit "vegan"; lit "gluten-free"] []).
Proof.
  assert (Off : Forall (fun id => In id Selector.offered)
                  [lit "vegan"; lit "nut-free"; lit "vegan"; lit "gluten-free"]).
  { repeat constructor; vm_compute; tauto. }
  split; [exact Off|]. split; [reflexivity|].
  exact (proj1 (clicked_preferences_sent Wire.pdf Off)).
Defined.

(* ================================================================== *)
(** * A whole attempt *)
(* ================================================================== *)

Section Attempt.

Variable S : Type.
Variable cb : callbacks S.

(** The loop of reads, however the reader ends. *)
Lemma read_loop_finish (values : list jsstring) (failure : option exn)
  (st : S) :
  read_loop cb [] values failure st =
  finish failure
    (process_events cb st (removelast (split [nl; nl] (concat values)))).
Proof.
  destruct values as [|v vs]; [destruct failure; reflexivity|].
  rewrite read_loop_frames. reflexivity.
Qed.

End Attempt.

Lemma last_call_sound (test : call -> bool) (calls : list call) (c : call) :
  Outcome.last_call test calls = Some c -> test c = true.
Proof.
  induction calls as [|x calls IH]; [discriminate|]. cbn.
  destruct (Outcome.last_call test calls) as [c'|].
  - intros E. inversion E; subst. auto.
  - destruct (test x) eqn:T; [|discriminate]. intros E. inversion E; subst.
    exact T.
Qed.

(** The page after the callbacks of [handleUpload] were called in turn. *)
Lemma page_calls (calls : list call) (p : page) :
  let p' := fold_left (fun s c => swallow (call_handler page_callbacks c s))
              calls p in
  steps p' = steps p ++ Outcome.steps_of calls
  /\ state p' =
     match Outcome.last_call is_terminal calls with
     | Some (CallDone _) => done
     | Some (CallError _) => error
     | _ => state p
     end
  /\ doneResult p' =
     match Outcome.last_call Outcome.is_done calls with
     | Some (CallDone result) => Some result
     | _ => doneResult p
     end
  /\ errorMessage p' =
     match Outcome.last_call Outcome.is_error calls with
     | Some (CallError message) => Value message
     | _ => errorMessage p
     end
  /\ file p' = file p /\ preferences p' = preferences p
  /\ dragOver p' = dragOver p.
Proof.
  revert p; induction calls as [|c calls IH]; intros p.
  - cbn. rewrite app_nil_r. repeat split.
  - cbn [fold_left].
    specialize (IH (swallow (call_handler page_callbacks c p))).
    cbv zeta in *. destruct IH as (I1 & I2 & I3 & I4 & I5 & I6 & I7).
    rewrite I1, I2, I3, I4, I5, I6, I7. cbn [Outcome.last_call].
    destruct (Outcome.last_call is_terminal calls) as [t|] eqn:T;
      [pose proof (last_call_sound _ _ T)|];
      destruct (Outcome.last_call Outcome.is_done calls) as [d|] eqn:D;
      [pose proof (last_call_sound _ _ D)| |pose proof (last_call_sound _ _ D)|];
      destruct (Outcome.last_call Outcome.is_error calls) as [e|] eqn:E;
      try pose proof (last_call_sound _ _ E);
      destruct c; try destruct t; try destruct d; try destruct e;
      try discriminate; cbn; rewrite <- ?app_assoc; repeat split.
Qed.

Lemma attempt_served (fetch : network) (selectedFile : File) (p : page)
  (res : Response) (r : reader) :
  fetch (formData selectedFile (preferences p)) = Resolved res ->
  ok res = true -> body res = Some r ->
  handleUpload fetch selectedFile p =
  let p' := fold_left (fun s c => swallow (call_handler page_callbacks c s))
              (calls_of (Outcome.frames r))
              (setState agent_running (begin_upload selectedFile p)) in
  match failure r with
  | None => p'
  | Some e => caught e p'
  end.
Proof.
  intros F O B. unfold handleUpload, uploadReportStreaming.
  change (preferences (setState agent_running (begin_upload selectedFile p)))
    with (preferences p).
  rewrite F, O, B. cbn [negb]. rewrite read_loop_finish, process_events_calls.
  unfold Outcome.frames. destruct (failure r); reflexivity.
Qed.

Lemma steps_of_length (calls : list call) :
  length (Outcome.steps_of calls)
  = length (filter (fun c => negb (is_terminal c)) calls).
Proof.
  induction calls as [|[v|v|v] cs IH]; simpl; auto.
Qed.

(** X6.  When the server accepts the upload and streams, the progress log
    of the page at the end of the attempt is the list of the payloads of the
    step frames that were dispatched, in their order, however the stream
    ends: its length, the counter the page shows, is the number of those
    frames. *)
Theorem log_is_the_step_frames (fetch : network) (selectedFile : File)
  (p : page) (res : Response) (r : reader) :
  fetch (formData selectedFile (preferences p)) = Resolved res ->
  ok res = true -> body res = Some r ->
  steps (handleUpload fetch selectedFile p)
  = Outcome.steps_of (calls_of (Outcome.frames r))
  /\ length (steps (handleUpload fetch selectedFile p))
     = length (filter (fun c => negb (is_terminal c))
                 (calls_of (Outcome.frames r))).
Proof.
  intros F O B. rewrite (attempt_served _ _ _ F O B). cbv zeta.
  pose proof (page_calls (calls_of (Outcome.frames r))
                (setState agent_running (begin_upload selectedFile p))) as H.
  cbv zeta in H. destruct H as (H & _).
  set (p' := fold_left _ _ _) in *.
  assert (E : steps (match failure r with
                     | Some e => caught e p'
                     | None => p'
                     end) = Outcome.steps_of (calls_of (Outcome.frames r))).
  { destruct (failure r); exact H. }
  split; [exact E|]. rewrite E. apply steps_of_length.
Qed.

Lemma log_is_the_step_frames_witness :
  (fun _ => Resolved (Samples.streaming Samples.done_then_error))
    (formData Wire.pdf (preferences initial))
  = Resolved (Samples.streaming Samples.done_then_error)
  /\ ok (Samples.streaming Samples.done_then_error) = true
  /\ body (Samples.streaming Samples.done_then_error) = Some Samples.done_then_error
  /\ length (steps (handleUpload
                      (fun _ => Resolved (Samples.streaming Samples.done_then_error))
                      Wire.pdf initial))
     = length (filter (fun c => negb (is_terminal c))
                 (calls_of (Outcome.frames Samples.done_then_error))).
Proof.
  split; [reflexivity|]. split; [reflexivity|]. split; [reflexivity|].
  exact (proj2 (@log_is_the_step_frames
                  (fun _ => Resolved (Samples.streaming Samples.done_then_error))
                  Wire.pdf initial (Samples.streaming Samples.done_then_error)
                  Samples.done_then_error eq_refl eq_refl eq_refl)).
Defined.

(** X7.  When the server streams and the stream ends, the last terminal
    frame dispatched decides where the page ends: done after a done frame,
    error after an error frame, and still running when there was none.  The
    result kept is that of the last done frame and the message that of the
    last error frame, whichever frame came last. *)
Theorem last_terminal_frame_decides (fetch : network) (selectedFile : File)
  (p : page) (res : Response) (r : reader) :
  fetch (formData selectedFile (preferences p)) = Resolved res ->
  ok res = true -> body res = Some r -> failure r = None ->
  state (handleUpload fetch selectedFile p) =
    match Outcome.last_call is_terminal (calls_of (Outcome.frames r)) with
    | Some (CallDone _) => done
    | Some (CallError _) => error
    | _ => agent_running
    end
  /\ doneResult (handleUpload fetch selectedFile p) =
    match Outcome.last_call Outcome.is_done (calls_of (Outcome.frames r)) with
    | Some (CallDone result) => Some result
    | _ => None
    end
  /\ errorMessage (handleUpload fetch selectedFile p) =
    match Outcome.last_call Outcome.is_error (calls_of (Outcome.frames r)) with
    | Some (CallError message) => Value message
    | _ => Text []
    end.
Proof.
  intros F O B E. rewrite (attempt_served _ _ _ F O B). cbv zeta. rewrite E.
  pose proof (page_calls (calls_of (Outcome.frames r))
                (setState agent_running (begin_upload selectedFile p))) as H.
  cbv zeta in H. destruct H as (_ & H2 & H3 & H4 & _).
  rewrite H2, H3, H4. repeat split.
Qed.

Lemma last_terminal_frame_decides_witness :
  (fun _ => Resolved (Samples.streaming Samples.done_then_error))
    (formData Wire.pdf (preferences initial))
  = Resolved (Samples.streaming Samples.done_then_error)
  /\ ok (Samples.streaming Samples.done_then_error) = true
  /\ body (Samples.streaming Samples.done_then_error) = Some Samples.done_then_error
  /\ failure Samples.done_then_error = None
  /\ state (handleUpload
              (fun _ => Resolved (Samples.streaming Samples.done_then_error))
              Wire.pdf initial)
     = match Outcome.last_call is_terminal
               (calls_of (Outcome.frames Samples.done_then_error)) with
       | Some (CallDone _) => done
       | Some (CallError _) => error
       | _ => agent_running
       end.
Proof.
  split; [reflexivity|]. split; [reflexivity|]. split; [reflexivity|].
  split; [reflexivity|].
  exact (proj1 (@last_terminal_frame_decides
                  (fun _ => Resolved (Samples.streaming Samples.done_then_error))
                  Wire.pdf initial (Samples.streaming Samples.done_then_error)
                  Samples.done_then_error eq_refl eq_refl eq_refl eq_refl)).
Defined.

Example done_then_error_ends_in_error :
  state (handleUpload (fun _ => Resolved (Samples.streaming Samples.done_then_error))
           Wire.pdf initial) = error
  /\ doneResult (handleUpload
                   (fun _ => Resolved (Samples.streaming Samples.done_then_error))
                   Wire.pdf initial) = JSON.parse Wire.done_abc.
Proof. vm_compute. split; reflexivity. Qed.

Lemma last_call_none (test : call -> bool) (calls : list call) :
  Forall (fun c => test c = false) calls ->
  Outcome.last_call test calls = None.
Proof.
  induction 1 as [|c calls E _ IH]; [reflexivity|].
  cbn. rewrite IH, E. reflexivity.
Qed.

Lemma no_terminal_no_done (calls : list call) :
  Forall (fun c => is_terminal c = false) calls ->
  Forall (fun c => Outcome.is_done c = false) calls
  /\ Forall (fun c => Outcome.is_error c = false) calls.
Proof.
  intros N. split; (eapply Forall_impl; [|exact N]);
    intros [x|x|x] T; try reflexivity; discriminate.
Qed.

(** X8.  When the stream ends and no frame of it was a terminal frame that
    was dispatched, the page stays in the state of the running agent.  When
    moreover the payloads of its step frames have the shape of a
    [ReasoningStep], the render returns the trace of the running agent and
    nothing else, with the name of the file and one card for each step frame
    in order: there is neither the button that resets the page nor the drop
    zone. *)
Theorem stream_without_terminal_frame (fetch : network) (selectedFile : File)
  (p : page) (res : Response) (r : reader)
  (typed : list StepCard.ReasoningStep) :
  fetch (formData selectedFile (preferences p)) = Resolved res ->
  ok res = true -> body res = Some r -> failure r = None ->
  Forall (fun c => is_terminal c = false) (calls_of (Outcome.frames r)) ->
  UploadEvents.as_steps (Outcome.steps_of (calls_of (Outcome.frames r)))
  = Some typed ->
  state (handleUpload fetch selectedFile p) = agent_running
  /\ exists v : UploadEvents.view,
       UploadEvents.view_of (handleUpload fetch selectedFile p) = Some v
       /\ UploadEvents.panels v
          = [UploadEvents.AgentTrace (Some (file_name selectedFile))
               (map StepCard.StepCard typed)]
       /\ UploadEvents.offers_reset v = false
       /\ UploadEvents.offers_upload v = false.
Proof.
  intros F O B E N Ty. rewrite (attempt_served _ _ _ F O B). cbv zeta. rewrite E.
  pose proof (page_calls (calls_of (Outcome.frames r))
                (setState agent_running (begin_upload selectedFile p))) as H.
  cbv zeta in H. destruct H as (H1 & H2 & H3 & H4 & H5 & _).
  destruct (no_terminal_no_done N) as (ND & NE).
  rewrite (last_call_none _ N) in H2.
  rewrite (last_call_none _ ND) in H3. rewrite (last_call_none _ NE) in H4.
  set (p' := fold_left _ _ _) in *.
  cbn in H1, H2, H3, H4, H5.
  split; [exact H2|].
  unfold UploadEvents.view_of. rewrite H1, H3, H4, Ty. cbn.
  eexists. split; [reflexivity|].
  unfold UploadEvents.offers_reset, UploadEvents.offers_upload,
    UploadEvents.panels, UploadEvents.name_of, UploadEvents.trace_of.
  cbn. rewrite H2, H5. repeat split.
Qed.

Lemma stream_without_terminal_frame_witness :
  (fun _ => Resolved (Samples.streaming Samples.typed_steps))
    (formData Wire.pdf (preferences initial))
  = Resolved (Samples.streaming Samples.typed_steps)
  /\ ok (Samples.streaming Samples.typed_steps) = true
  /\ body (Samples.streaming Samples.typed_steps) = Some Samples.typed_steps
  /\ failure Samples.typed_steps = None
  /\ Forall (fun c => is_terminal c = false)
       (calls_of (Outcome.frames Samples.typed_steps))
  /\ (exists typed,
        UploadEvents.as_steps
          (Outcome.steps_of (calls_of (Outcome.frames Samples.typed_steps)))
        = Some typed /\ length typed = 2)
  /\ state (handleUpload
              (fun _ => Resolved (Samples.streaming Samples.typed_steps))
              Wire.pdf initial) = agent_running.
Proof.
  assert (N : Forall (fun c => is_terminal c = false)
                (calls_of (Outcome.frames Samples.typed_steps))).
  { vm_compute. repeat constructor. }
  destruct (UploadEvents.as_steps
              (Outcome.steps_of (calls_of (Outcome.frames Samples.typed_steps))))
    as [typed|] eqn:Ty; [|vm_compute in Ty; discriminate].
  split; [reflexivity|]. split; [reflexivity|]. split; [reflexivity|].
  split; [reflexivity|]. split; [exact N|].
  split.
  - exists typed. split; [reflexivity|].
    vm_compute in Ty. inversion Ty. reflexivity.
  - exact (proj1 (@stream_without_terminal_frame
                    (fun _ => Resolved (Samples.streaming Samples.typed_steps))
                    Wire.pdf initial (Samples.streaming Samples.typed_steps)
                    Samples.typed_steps typed eq_refl eq_refl eq_refl eq_refl
                    N Ty)).
Defined.

Example typed_steps_trace :
  option_map UploadEvents.panels
    (UploadEvents.view_of
       (handleUpload (fun _ => Resolved (Samples.streaming Samples.typed_steps))
          Wire.pdf initial))
  = Some [UploadEvents.AgentTrace (Some (lit "report.pdf"))
            [ {| StepCard.isToolCall := false; StepCard.tool_label := None;
                 StepCard.reasoning_text := Some (lit "r");
                 StepCard.summary_text := Some (lit "s") |};
              {| StepCard.isToolCall := true;
                 StepCard.tool_label := Some (lit "lookup reference range");
                 StepCard.reasoning_text := Some (lit "r");
                 StepCard.summary_text := Some (lit "s") |} ]].
Proof. vm_compute. reflexivity. Qed.

(** A step frame whose payload is null is dispatched like any other and is
    in the log, and the page is then none that holds values of its types. *)
Example null_step_not_of_the_type :
  steps (handleUpload (Wire.serve [Wire.frame "step" (lit "null")])
           Wire.pdf initial) = [JNull]
  /\ UploadEvents.view_of
       (handleUpload (Wire.serve [Wire.frame "step" (lit "null")])
          Wire.pdf initial) = None.
Proof. vm_compute. split; reflexivity. Qed.

(** The stream changes neither the file, the preferences nor the drag
    flag, whatever the network does. *)
Lemma stream_frame (fetch : network) (selectedFile : File)
  (prefs : list jsstring) (p : page) :
  file (swallow (uploadReportStreaming page_callbacks fetch selectedFile
                   prefs p)) = file p
  /\ preferences (swallow (uploadReportStreaming page_callbacks fetch
                            selectedFile prefs p)) = preferences p
  /\ dragOver (swallow (uploadReportStreaming page_callbacks fetch
                         selectedFile prefs p)) = dragOver p.
Proof.
  unfold uploadReportStreaming.
  destruct (fetch (formData selectedFile prefs)) as [e|res];
    [repeat split|].
  destruct (ok res); cbn [negb].
  - destruct (body res) as [r|]; [|repeat split].
    rewrite read_loop_finish, process_events_calls.
    pose proof (page_calls
                  (calls_of (removelast (split [nl; nl] (concat (chunks r)))))
                  p) as H.
    cbv zeta in H. destruct H as (_ & _ & _ & _ & H5 & H6 & H7).
    destruct (failure r); cbn [finish swallow]; repeat split; assumption.
  - destruct (Get (error_body res) (lit "detail")); repeat split.
Qed.

Lemma handleUpload_frame (fetch : network) (selectedFile : File) (p : page) :
  file (handleUpload fetch selectedFile p) = Some selectedFile
  /\ preferences (handleUpload fetch selectedFile p) = preferences p
  /\ dragOver (handleUpload fetch selectedFile p) = dragOver p.
Proof.
  unfold handleUpload.
  pose proof (stream_frame fetch selectedFile
                (preferences (setState agent_running
                                (begin_upload selectedFile p)))
                (setState agent_running (begin_upload selectedFile p)))
    as (H1 & H2 & H3).
  destruct (uploadReportStreaming _ _ _ _ _) as [q|e q]; cbn [swallow] in *;
    [|unfold caught; cbn [file preferences dragOver setState setErrorMessage]];
    rewrite H1, H2, H3; repeat split.
Qed.

(** X9.  An attempt changes the session and nothing else: whatever the
    network answers and whatever the stream holds, the page ends with the
    file that was chosen, and with the dietary preferences and the drag flag
    it had. *)
Theorem attempt_keeps_file_and_preferences
  (fetch : network) (selectedFile : File) (p : page) :
  file (handleUpload fetch selectedFile p) = Some selectedFile
  /\ preferences (handleUpload fetch selectedFile p) = preferences p
  /\ dragOver (handleUpload fetch selectedFile p) = dragOver p.
Proof. apply handleUpload_frame. Qed.

(* ================================================================== *)
(** * The handlers and the panels of the upload page *)
(* ================================================================== *)


Example dropped_image_ignored :
  UploadEvents.handleDrop (Wire.serve [Wire.frame "done" Wire.done_abc])
    [Samples.photo; Wire.pdf] initial = initial
  /\ state (UploadEvents.handleFileInput
              (Wire.serve [Wire.frame "done" Wire.done_abc])
              [Samples.photo] initial) = done.
Proof. vm_compute. split; reflexivity. Qed.

(** X11.  For a page whose state variables hold values of their declared
    types, the render returns at most one of the panels, and none exactly
    when the page is done with a result that is null.  A button that resets
    the page is there exactly in the error state and in the done state with
    a result; the drop zone exactly when idle, so always after a reset.  A
    done frame whose payload is null therefore leaves a page with no panel
    and no way back, while an error call with a string, and a failure caught
    by [handleUpload], lead to the error panel with that message, the trace
    so far and the button. *)
Theorem panels_of_the_page (v : UploadEvents.view) :
  length (UploadEvents.panels v) <= 1
  /\ (UploadEvents.panels v = [] <->
      UploadEvents.view_state v = done /\ UploadEvents.view_doneResult v = None)
  /\ (UploadEvents.offers_reset v = true <->
      UploadEvents.view_state v = error
      \/ (UploadEvents.view_state v = done
          /\ exists result, UploadEvents.view_doneResult v = Some result))
  /\ (UploadEvents.offers_upload v = true <-> UploadEvents.view_state v = idle)
  /\ (forall p : page,
        exists v',
          UploadEvents.view_of (reset p) = Some v'
          /\ UploadEvents.panels v' = [UploadEvents.UploadZone])
  /\ (forall p : page,
        UploadEvents.view_of p = Some v ->
        exists v',
          UploadEvents.view_of (page_onDone JNull p) = Some v'
          /\ UploadEvents.panels v' = []
          /\ UploadEvents.offers_reset v' = false)
  /\ (forall (p : page) (s : jsstring),
        UploadEvents.view_of p = Some v ->
        exists v',
          UploadEvents.view_of (page_onError (JString s) p) = Some v'
          /\ UploadEvents.panels v'
             = [UploadEvents.ErrorPanel (text_of s) (UploadEvents.trace_of v)]
          /\ UploadEvents.offers_reset v' = true)
  /\ (forall (p : page) (err : exn),
        UploadEvents.view_of p = Some v ->
        exists v',
          UploadEvents.view_of (caught err p) = Some v'
          /\ UploadEvents.panels v'
             = [UploadEvents.ErrorPanel
                  (if instance_of_Error err then message err
                   else text_of (lit "Agent failed"))
                  (UploadEvents.trace_of v)]
          /\ UploadEvents.offers_reset v' = true).
Proof.
  unfold UploadEvents.offers_reset, UploadEvents.offers_upload,
    UploadEvents.panels.
  split; [|split; [|split; [|split; [|split; [|split; [|split]]]]]].
  - destruct (UploadEvents.view_state v); cbn; try lia.
    destruct (UploadEvents.view_doneResult v); cbn; lia.
  - destruct (UploadEvents.view_state v); cbn;
      try (split; [discriminate|intros [? ?]; discriminate]).
    destruct (UploadEvents.view_doneResult v); cbn;
      (split; [discriminate || auto|intros [? ?]; discriminate || auto]).
  - destruct (UploadEvents.view_state v); cbn;
      try (split; [discriminate|intros [?|[? ?]]; discriminate]);
      try (split; auto; fail).
    destruct (UploadEvents.view_doneResult v) as [result|]; cbn.
    + split; [intros _; right; split; [reflexivity|exists result; reflexivity]
             |reflexivity].
    + split; [discriminate|intros [?|[_ [? ?]]]; discriminate].
  - destruct (UploadEvents.view_state v); cbn;
      try (split; [discriminate|discriminate]).
    + split; auto.
    + destruct (UploadEvents.view_doneResult v); cbn; split; discriminate.
  - intros p. eexists. split; reflexivity.
  - intros p V. unfold UploadEvents.view_of in *.
    cbn [steps doneResult errorMessage state file page_onDone setState
         setDoneResult UploadEvents.as_result].
    destruct (UploadEvents.as_steps (steps p)); [|discriminate].
    destruct (UploadEvents.as_result (doneResult p)); [|discriminate].
    destruct (UploadEvents.as_message (errorMessage p)); [|discriminate].
    eexists. split; [reflexivity|]. split; reflexivity.
  - intros p s V. unfold UploadEvents.view_of in *.
    cbn [steps doneResult errorMessage state file page_onError setState
         setErrorMessage UploadEvents.as_message].
    destruct (UploadEvents.as_steps (steps p)); [|discriminate].
    destruct (UploadEvents.as_result (doneResult p)); [|discriminate].
    destruct (UploadEvents.as_message (errorMessage p)); [|discriminate].
    inversion V; subst v. eexists. split; [reflexivity|]. split; reflexivity.
  - intros p err V. unfold UploadEvents.view_of in *.
    cbn [steps doneResult errorMessage state file caught setState
         setErrorMessage UploadEvents.as_message].
    destruct (UploadEvents.as_steps (steps p)); [|discriminate].
    destruct (UploadEvents.as_result (doneResult p)); [|discriminate].
    destruct (UploadEvents.as_message (errorMessage p)); [|discriminate].
    inversion V; subst v. eexists. split; [reflexivity|]. split; reflexivity.
Qed.

Example null_done_payload_blank_page :
  option_map UploadEvents.panels
    (UploadEvents.view_of
       (handleUpload (Wire.serve [Wire.frame "done" (lit "null")])
          Wire.pdf initial)) = Some []
  /\ state (handleUpload (Wire.serve [Wire.frame "done" (lit "null")])
              Wire.pdf initial) = done.
Proof. vm_compute. split; reflexivity. Qed.

(** An error frame whose message is an object: the page is in the error
    state, but what it holds as its message is no string. *)
Example object_message_not_of_the_type :
  state (handleUpload
           (Wire.serve
              [Wire.frame "error"
                 (lit "{" ++ quoted "error" ++ lit ":{" ++ quoted "code"
                  ++ lit ":7}}")])
           Wire.pdf initial) = error
  /\ UploadEvents.view_of
       (handleUpload
          (Wire.serve
             [Wire.frame "error"
                (lit "{" ++ quoted "error" ++ lit ":{" ++ quoted "code"
                 ++ lit ":7}}")])
          Wire.pdf initial) = None.
Proof. vm_compute. split; reflexivity. Qed.

(* ================================================================== *)
(** * The step card *)
(* ================================================================== *)

Lemma shorten_long (s : jsstring) :
  200 < length s -> StepCard.shorten s = firstn 200 s ++ [StepCard.ellipsis].
Proof.
  intros L. unfold StepCard.shorten.
  destruct (Nat.ltb_spec 200 (length s)); [reflexivity|lia].
Qed.

Lemma shorten_short (s : jsstring) :
  length s <= 200 -> StepCard.shorten s = s.
Proof.
  intros L. unfold StepCard.shorten.
  destruct (Nat.ltb_spec 200 (length s)); [lia|reflexivity].
Qed.

Lemma shorten_length (s : jsstring) :
  length (StepCard.shorten s) = Nat.min (length s) 201.
Proof.
  destruct (Nat.le_gt_cases (length s) 200) as [L|L].
  - rewrite shorten_short by exact L. lia.
  - rewrite shorten_long by exact L.
    rewrite length_app, length_firstn. cbn [length]. lia.
Qed.

(** X12.  The reasoning a card shows is the reasoning itself when it has at
    most 200 code units, and its first 200 code units followed by one
    ellipsis otherwise: never more than 201 code units, always with the same
    first 200, and empty only when the reasoning is.  Shortening what was
    shortened changes nothing. *)
Theorem reasoning_shortened (s : jsstring) :
  length (StepCard.shorten s) = Nat.min (length s) 201
  /\ firstn 200 (StepCard.shorten s) = firstn 200 s
  /\ (length s <= 200 -> StepCard.shorten s = s)
  /\ (StepCard.shorten s = [] <-> s = [])
  /\ StepCard.shorten (StepCard.shorten s) = StepCard.shorten s.
Proof.
  split; [apply shorten_length|].
  destruct (Nat.le_gt_cases (length s) 200) as [L|L].
  - rewrite !shorten_short by (rewrite ?shorten_short; assumption).
    repeat split; auto.
  - assert (F : length (firstn 200 s) = 200) by (rewrite length_firstn; lia).
    assert (P : firstn 200 (firstn 200 s ++ [StepCard.ellipsis])
                = firstn 200 s).
    { rewrite firstn_app, F, Nat.sub_diag, firstn_firstn, Nat.min_id.
      apply app_nil_r. }
    assert (Len : length (firstn 200 s ++ [StepCard.ellipsis]) = 201)
      by (rewrite length_app, F; reflexivity).
    rewrite (shorten_long _ L). split; [exact P|]. split; [|split].
    + intros; exfalso; lia.
    + split.
      * intros E. rewrite E in Len. discriminate.
      * intros ->. exfalso. cbn [length] in L. lia.
    + rewrite shorten_long by (rewrite Len; lia). rewrite P. reflexivity.
Qed.

Lemma spaced_no_underscore (s : jsstring) : ~ In (ch "_") (StepCard.spaced s).
Proof.
  unfold StepCard.spaced. rewrite in_map_iff. intros (c & E & _).
  destruct (N.eqb_spec c (ch "_")) as [Eq|NE]; [discriminate|].
  congruence.
Qed.

Lemma spaced_without (s : jsstring) :
  ~ In (ch "_") s -> StepCard.spaced s = s.
Proof.
  induction s as [|c s IH]; intros NI; [reflexivity|].
  unfold StepCard.spaced in *. cbn [map].
  rewrite IH by (intros H; apply NI; right; exact H).
  destruct (N.eqb_spec c (ch "_")) as [Eq|NE]; [|reflexivity].
  exfalso. apply NI. left. exact Eq.
Qed.

(** X13.  The name of a tool is shown with every underscore replaced by a
    space and nothing else changed: the same length, no underscore left, the
    other code units where they were; a name without underscores is shown as
    it is.  A card has the label only for a tool call with a non-empty tool
    name, and its reasoning, when it has one, holds 1 to 201 code units. *)
Theorem tool_label_spaced (step : StepCard.ReasoningStep) (s : jsstring) :
  length (StepCard.spaced s) = length s
  /\ ~ In (ch "_") (StepCard.spaced s)
  /\ (forall (i : nat) (c : N),
        nth_error s i = Some c -> c <> ch "_" ->
        nth_error (StepCard.spaced s) i = Some c)
  /\ (forall i : nat,
        nth_error s i = Some (ch "_") ->
        nth_error (StepCard.spaced s) i = Some (ch " "))
  /\ StepCard.spaced (StepCard.spaced s) = StepCard.spaced s
  /\ (forall label : jsstring,
        StepCard.tool_label (StepCard.StepCard step) = Some label ->
        StepCard.action step = lit "tool_call"
        /\ exists name, StepCard.tool_name step = Some name /\ name <> []
                        /\ label = StepCard.spaced name)
  /\ (forall text : jsstring,
        StepCard.reasoning_text (StepCard.StepCard step) = Some text ->
        1 <= length text <= 201).
Proof.
  split; [apply length_map|]. split; [apply spaced_no_underscore|].
  split; [|split; [|split; [|split]]].
  - intros i c E NE. unfold StepCard.spaced. rewrite nth_error_map, E.
    cbn [option_map]. destruct (N.eqb_spec c (ch "_")); [contradiction|reflexivity].
  - intros i E. unfold StepCard.spaced. rewrite nth_error_map, E. reflexivity.
  - apply spaced_without, spaced_no_underscore.
  - intros label. unfold StepCard.StepCard. cbn [StepCard.tool_label].
    destruct (StepCard.tool_name step) as [name|]; [|discriminate].
    destruct (eqb (StepCard.action step) (lit "tool_call")) eqn:A;
      [|discriminate].
    destruct name as [|c name]; [discriminate|]. cbn. intros E.
    inversion E; subst. split; [apply eqb_eq; exact A|].
    eexists. repeat split. discriminate.
  - intros text. unfold StepCard.StepCard. cbn [StepCard.reasoning_text].
    destruct (StepCard.reasoning step) as [|c r] eqn:R; [discriminate|].
    cbn [falsy]. intros E. inversion E; subst.
    rewrite shorten_length. simpl length. lia.
Qed.

Example long_reasoning_shortened :
  length (StepCard.shorten (repeat (ch "a") 500)) = 201
  /\ StepCard.spaced (lit "lookup_reference_range")
     = lit "lookup reference range".
Proof. vm_compute. split; reflexivity. Qed.

(* ================================================================== *)
(** * The calls with a single answer *)
(* ================================================================== *)

(** X14.  [uploadReport] never fulfils on a non-success status: it rejects
    with an Error, the very one [uploadReportStreaming] throws for the same
    answer, whatever the callbacks.  On a success status it gives the JSON of
    the body as it is, with no look at its fields. *)
Theorem uploadReport_like_the_stream
  (S : Type) (cb : callbacks S) (st : S)
  (fetch : network) (file : File) (prefs : list jsstring) (res : Response) :
  fetch (formData file prefs) = Resolved res ->
  (ok res = false ->
   exists e : exn,
     ApiCalls.uploadReport fetch file prefs = ApiCalls.RejectedWith e
     /\ uploadReportStreaming cb fetch file prefs st = Throw e st
     /\ instance_of_Error e = true)
  /\ (ok res = true ->
      forall v : json,
        json_body res = Some v ->
        ApiCalls.uploadReport fetch file prefs = ApiCalls.Fulfilled v).
Proof.
  intros F. unfold ApiCalls.uploadReport, uploadReportStreaming. rewrite F.
  split; intros O; rewrite O; cbn [negb].
  - fold (error_body res).
    destruct (Get (error_body res) (lit "detail")) as [detail|].
    + eexists. repeat split. apply Error_is_Error.
    + eexists. repeat split.
  - intros v B. unfold ApiCalls.json_of. rewrite B. reflexivity.
Qed.

Lemma uploadReport_like_the_stream_witness :
  Wire.refuse None (formData Wire.pdf []) = Resolved Wire.failed
  /\ ok Wire.failed = false
  /\ exists e : exn,
       ApiCalls.uploadReport (Wire.refuse None) Wire.pdf []
       = ApiCalls.RejectedWith e
       /\ uploadReportStreaming page_callbacks (Wire.refuse None) Wire.pdf []
            initial = Throw e initial
       /\ instance_of_Error e = true.
Proof.
  split; [reflexivity|]. split; [reflexivity|].
  exact (proj1 (@uploadReport_like_the_stream page page_callbacks initial
                  (Wire.refuse None) Wire.pdf [] Wire.failed eq_refl)
           eq_refl).
Defined.

(** X15.  On a non-success status [getReport] never fulfils: it rejects
    with an Error.  When the body of the answer is no JSON the message is
    "Report not found".  When the body is the JSON value null, and only
    then, reading its detail throws, and the rejection is the TypeError of
    the engine.  In every other case the Error is the one made from the
    detail of the body when that is truthy, and from "Report not found"
    otherwise: its message is "Report not found" when the detail is absent
    or falsy, and the detail itself when that is a string that is not
    empty.  The base of the address is the configured one when one is set
    and not empty, and "http://localhost:8000" otherwise, so never empty. *)
Theorem getReport_not_found
  (base : jsstring) (fetch : jsstring -> fetched) (reportId : jsstring)
  (res : Response) :
  fetch (ApiCalls.report_url base reportId) = Resolved res ->
  ok res = false ->
  (exists e : exn,
     ApiCalls.getReport base fetch reportId = ApiCalls.RejectedWith e
     /\ instance_of_Error e = true
     /\ (json_body res = None ->
         message e = text_of (lit "Report not found"))
     /\ (json_body res = Some JNull -> e = BuiltinError)
     /\ (forall v : json,
           json_body res = Some v -> v <> JNull ->
           exists detail : option json,
             Get v (lit "detail") = Some detail
             /\ e = Error (or_else detail (JString (lit "Report not found")))
             /\ (detail = None
                 \/ (exists d, detail = Some d /\ truthy d = false) ->
                 message e = text_of (lit "Report not found"))
             /\ (forall s, detail = Some (JString s) -> s <> [] ->
                           message e = text_of s)))
  /\ (forall env : option jsstring,
        ApiCalls.API_BASE env <> []
        /\ (forall url, env = Some url -> url <> [] ->
                        ApiCalls.API_BASE env = url)
        /\ (env = None \/ env = Some [] ->
            ApiCalls.API_BASE env = lit "http://localhost:8000")).
Proof.
  intros F O. split.
  - unfold ApiCalls.getReport. rewrite F, O. cbn [negb].
    destruct (json_body res) as [v|] eqn:B.
    + destruct (Get v (lit "detail")) as [detail|] eqn:G.
      * eexists. split; [reflexivity|]. split; [apply Error_is_Error|].
        split; [discriminate|]. split.
        -- intros Ev. inversion Ev; subst v. discriminate.
        -- intros v' Ev NN. inversion Ev; subst v'. exists detail.
           split; [exact G|]. split; [reflexivity|]. split.
           ++ intros [->|(d & -> & T)]; [reflexivity|].
              unfold Error. cbn [or_else]. rewrite T. reflexivity.
           ++ intros s -> NE. destruct s as [|c s]; [congruence|]. reflexivity.
      * eexists. split; [reflexivity|]. split; [reflexivity|].
        split; [discriminate|]. split; [reflexivity|].
        intros v' Ev NN. inversion Ev; subst v'.
        destruct v; try discriminate. congruence.
    + eexists. split; [reflexivity|]. split; [reflexivity|].
      split; [reflexivity|]. split; [discriminate|]. intros v Ev. discriminate.
  - intros env. split; [|split].
    + destruct env as [[|c url]|]; discriminate.
    + intros url -> NE. destruct url; [congruence|reflexivity].
    + intros [->| ->]; reflexivity.
Qed.

Lemma getReport_not_found_witness :
  (fun _ : jsstring => Resolved Wire.failed)
    (ApiCalls.report_url (ApiCalls.API_BASE None) (lit "abc"))
  = Resolved Wire.failed
  /\ ok Wire.failed = false
  /\ exists e : exn,
       ApiCalls.getReport (ApiCalls.API_BASE None)
         (fun _ => Resolved Wire.failed) (lit "abc")
       = ApiCalls.RejectedWith e
       /\ instance_of_Error e = true
       /\ message e = text_of (lit "Report not found").
Proof.
  split; [reflexivity|]. split; [reflexivity|].
  destruct (proj1 (@getReport_not_found (ApiCalls.API_BASE None)
                     (fun _ => Resolved Wire.failed) (lit "abc")
                     Wire.failed eq_refl eq_refl))
    as (e & H1 & H2 & H3 & _).
  exists e. split; [exact H1|]. split; [exact H2|]. exact (H3 eq_refl).
Defined.

(** A non-success answer whose body is the JSON value null. *)
Example getReport_null_body :
  ApiCalls.getReport (ApiCalls.API_BASE None)
    (fun _ => Resolved {| ok := false; json_body := JSON.parse (lit "null");
                          body := None |})
    (lit "abc")
  = ApiCalls.RejectedWith BuiltinError.
Proof. vm_compute. reflexivity. Qed.

(* ================================================================== *)
(** * The cart *)
(* ================================================================== *)

Lemma remove_In (a : Z) (c : list Cart.CartItem) (i : Cart.CartItem) :
  In i (Cart.remove a c) <-> In i c /\ Cart.id i <> a.
Proof.
  unfold Cart.remove. rewrite filter_In, negb_true_iff, Z.eqb_neq. tauto.
Qed.

Lemma remove_absent (a : Z) (c : list Cart.CartItem) :
  Forall (fun i => Cart.id i <> a) c -> Cart.remove a c = c.
Proof.
  induction 1 as [|i c NE _ IH]; [reflexivity|]. cbn.
  apply Z.eqb_neq in NE. rewrite NE. cbn. f_equal. exact IH.
Qed.

Lemma remove_none_left (a : Z) (c : list Cart.CartItem) :
  Forall (fun i => Cart.id i <> a) (Cart.remove a c).
Proof. apply Forall_forall. intros i H. apply remove_In in H. tauto. Qed.

Lemma filter_comm (A : Type) (f g : A -> bool) (l : list A) :
  filter f (filter g l) = filter g (filter f l).
Proof.
  induction l as [|x l IH]; [reflexivity|]. cbn.
  destruct (f x) eqn:F, (g x) eqn:G; cbn; rewrite ?F, ?G, IH; reflexivity.
Qed.

(** X16.  Removing an item takes out every item with its id and no other,
    in place: what is left keeps its order, removing again changes nothing,
    removals can be done in either order, and an id that is not in the cart
    leaves the cart as it is.  A change of quantity does not bring a removed
    item back, nor does it survive the removal. *)
Theorem remove_takes_the_id_out (a b q : Z) (c : list Cart.CartItem) :
  (forall i, In i (Cart.remove a c) <-> In i c /\ Cart.id i <> a)
  /\ Cart.remove a c = filter (fun i => negb (Z.eqb (Cart.id i) a)) c
  /\ Cart.remove a (Cart.remove a c) = Cart.remove a c
  /\ Cart.remove a (Cart.remove b c) = Cart.remove b (Cart.remove a c)
  /\ length (Cart.remove a c) <= length c
  /\ (Forall (fun i => Cart.id i <> a) c -> Cart.remove a c = c)
  /\ Cart.remove a (Cart.updateQty a q c) = Cart.remove a c
  /\ Cart.updateQty a q (Cart.remove a c) = Cart.remove a c.
Proof.
  split; [intros i; apply remove_In|]. split; [reflexivity|].
  split; [apply remove_absent, remove_none_left|].
  split; [apply filter_comm|]. split; [apply filter_length_le|].
  split; [apply remove_absent|]. split.
  - induction c as [|i c IH]; [reflexivity|]. cbn.
    destruct (Z.eqb (Cart.id i) a) eqn:E; cbn; rewrite E; cbn;
      [exact IH|f_equal; exact IH].
  - induction c as [|i c IH]; [reflexivity|]. cbn.
    destruct (Z.eqb (Cart.id i) a) eqn:E; cbn; [exact IH|].
    rewrite E. f_equal. exact IH.
Qed.

Lemma updateQty_twice (a q1 q2 : Z) (c : list Cart.CartItem) :
  Cart.updateQty a q2 (Cart.updateQty a q1 c) = Cart.updateQty a q2 c.
Proof.
  unfold Cart.updateQty. rewrite map_map. apply map_ext. intros i.
  destruct (Z.eqb (Cart.id i) a) eqn:E; cbn; rewrite E; reflexivity.
Qed.

Lemma updateQty_same (a q : Z) (c : list Cart.CartItem) :
  Forall (fun i => Cart.id i = a -> Cart.quantity i = q) c ->
  Cart.updateQty a q c = c.
Proof.
  induction 1 as [|i c H _ IH]; [reflexivity|].
  unfold Cart.updateQty in *. cbn [map]. rewrite IH. f_equal.
  destruct (Z.eqb_spec (Cart.id i) a) as [E|]; [|reflexivity].
  specialize (H E). destruct i. cbn in *. subst. reflexivity.
Qed.

(** X17.  A change of quantity keeps every item where it is and as it is,
    but for the quantity of the items with the id, which becomes the new
    one: the cart has the same length, the same ids, names, nutrients and
    categories in the same order.  Of two changes for one id the last one
    stands; changes for different ids can be made in either order; an id
    that is not in the cart changes nothing. *)
Theorem updateQty_changes_one_quantity (a b q q' : Z) (c : list Cart.CartItem) :
  Forall2
    (fun i j =>
       Cart.id j = Cart.id i /\ Cart.name j = Cart.name i
       /\ Cart.emoji j = Cart.emoji i /\ Cart.nutrient j = Cart.nutrient i
       /\ Cart.amount j = Cart.amount i /\ Cart.category j = Cart.category i
       /\ Cart.instacart_url j = Cart.instacart_url i
       /\ Cart.quantity j
          = if Z.eqb (Cart.id i) a then q else Cart.quantity i)
    c (Cart.updateQty a q c)
  /\ length (Cart.updateQty a q c) = length c
  /\ Cart.updateQty a q' (Cart.updateQty a q c) = Cart.updateQty a q' c
  /\ (a <> b ->
      Cart.updateQty a q (Cart.updateQty b q' c)
      = Cart.updateQty b q' (Cart.updateQty a q c))
  /\ (Forall (fun i => Cart.id i <> a) c -> Cart.updateQty a q c = c).
Proof.
  split; [|split; [apply length_map|split; [apply updateQty_twice|split]]].
  - induction c as [|i c IH]; [constructor|]. cbn. constructor; [|exact IH].
    destruct (Z.eqb (Cart.id i) a); cbn; repeat split.
  - intros NE. unfold Cart.updateQty. rewrite !map_map. apply map_ext.
    intros i.
    assert (Hid : forall x y (j : Cart.CartItem),
              Cart.id (if Z.eqb (Cart.id j) x then Cart.with_quantity y j
                       else j) = Cart.id j)
      by (intros x y j; destruct (Z.eqb (Cart.id j) x); reflexivity).
    rewrite !Hid.
    destruct (Z.eqb_spec (Cart.id i) a), (Z.eqb_spec (Cart.id i) b);
      try congruence; reflexivity.
  - intros F. apply updateQty_same. eapply Forall_impl; [|exact F].
    intros i NE E. contradiction.
Qed.




Section CartGroups.

Variable toLowerCase : jsstring -> jsstring.



End CartGroups.


(** An item whose category is the lower case of another nutrient is listed
    twice. *)
Example item_listed_twice :
  map (fun section => (fst section, map Cart.name (snd section)))
    (Cart.sections Samples.lower [Samples.spinach; Samples.salmon])
  = [(lit "Iron", [lit "Spinach"; lit "Salmon"]);
     (lit "Vitamin D", [lit "Salmon"])].
Proof. vm_compute. reflexivity. Qed.

Lemma same_id_same_item (c : list Cart.CartItem) (i j : Cart.CartItem) :
  NoDup (map Cart.id c) -> In i c -> In j c -> Cart.id i = Cart.id j ->
  i = j.
Proof.
  induction c as [|x c IH]; intros ND Hi Hj E; [destruct Hi|].
  cbn in ND. inversion ND as [|? ? NI ND']; subst.
  destruct Hi as [->|Hi], Hj as [->|Hj].
  - reflexivity.
  - exfalso. apply NI. rewrite E. apply in_map. exact Hj.
  - exfalso. apply NI. rewrite <- E. apply in_map. exact Hi.
  - apply IH; assumption.
Qed.

(** X19.  The buttons of a row never bring a quantity below 1: after the
    minus button every item with the id of the row has at least 1, whatever
    it had, and a cart whose quantities are all at least 1 stays so under the
    minus, the plus and the remove button of any of its rows.  Where ids are
    not repeated, plus and then minus on a row gives the cart back. *)
Theorem quantity_stays_positive (item : Cart.CartItem)
  (c : list Cart.CartItem) :
  Forall (fun i => Cart.id i = Cart.id item -> (1 <= Cart.quantity i)%Z)
    (Cart.click_minus item c)
  /\ (In item c -> Forall (fun i => (1 <= Cart.quantity i)%Z) c ->
      Forall (fun i => (1 <= Cart.quantity i)%Z) (Cart.click_minus item c)
      /\ Forall (fun i => (1 <= Cart.quantity i)%Z) (Cart.click_plus item c)
      /\ Forall (fun i => (1 <= Cart.quantity i)%Z) (Cart.click_remove item c))
  /\ (In item c -> NoDup (map Cart.id c) ->
      (1 <= Cart.quantity item < 2 ^ 53)%Z ->
      Cart.click_minus
        (Cart.with_quantity (Cart.quantity item + 1) item)
        (Cart.click_plus item c) = c).
Proof.
  assert (Upd : forall q, (1 <= q)%Z ->
            Forall (fun i => (1 <= Cart.quantity i)%Z) c ->
            Forall (fun i => (1 <= Cart.quantity i)%Z)
              (Cart.updateQty (Cart.id item) q c)).
  { intros q Q F. unfold Cart.updateQty. apply Forall_map.
    eapply Forall_impl; [|exact F]. intros i H.
    destruct (Z.eqb (Cart.id i) (Cart.id item)); cbn; assumption. }
  split; [|split].
  - unfold Cart.click_minus, Cart.updateQty. apply Forall_map.
    apply Forall_forall. intros i _ E.
    destruct (Z.eqb_spec (Cart.id i) (Cart.id item)) as [_|NE]; cbn;
      [lia|]. cbn in E. contradiction.
  - intros Hin F.
    assert (Q : (1 <= Cart.quantity item)%Z)
      by (rewrite Forall_forall in F; apply F; exact Hin).
    split; [apply Upd; [lia|exact F]|].
    split; [apply Upd; [lia|exact F]|].
    unfold Cart.click_remove. apply Forall_forall. intros i H.
    apply remove_In in H. rewrite Forall_forall in F. apply F. tauto.
  - intros Hin ND Q. unfold Cart.click_minus, Cart.click_plus.
    cbn [Cart.id Cart.quantity Cart.with_quantity].
    rewrite updateQty_twice.
    replace (Z.max 1 (Cart.quantity item + 1 - 1)) with (Cart.quantity item)
      by lia.
    apply updateQty_same. apply Forall_forall. intros i Hi E.
    f_equal. apply (same_id_same_item c); assumption.
Qed.

Lemma quantity_stays_positive_witness :
  In Samples.spinach [Samples.spinach; Samples.salmon]
  /\ Forall (fun i => (1 <= Cart.quantity i)%Z)
       [Samples.spinach; Samples.salmon]
  /\ Forall (fun i => (1 <= Cart.quantity i)%Z)
       (Cart.click_minus Samples.spinach [Samples.spinach; Samples.salmon]).
Proof.
  assert (H : In Samples.spinach [Samples.spinach; Samples.salmon])
    by (left; reflexivity).
  assert (F : Forall (fun i => (1 <= Cart.quantity i)%Z)
                [Samples.spinach; Samples.salmon])
    by (repeat constructor; cbn; lia).
  split; [exact H|]. split; [exact F|].
  exact (proj1 (proj1 (proj2 (quantity_stays_positive Samples.spinach
                                [Samples.spinach; Samples.salmon])) H F)).
Defined.

(* ================================================================== *)
(** * Attempts that fail, and streams without a blank line *)
(* ================================================================== *)

(** X20.  When the request itself is rejected, or a read of the stream is,
    the page ends in the error state; its message is the message of what was
    thrown when that is an Error and "Agent failed" otherwise.  After a
    rejected request the progress log is empty and there is no result; after
    a rejected read the log holds the steps dispatched before it. *)
Theorem rejected_transport (fetch : network) (selectedFile : File)
  (p : page) :
  (forall e : exn,
     fetch (formData selectedFile (preferences p)) = Rejected e ->
     state (handleUpload fetch selectedFile p) = error
     /\ steps (handleUpload fetch selectedFile p) = []
     /\ doneResult (handleUpload fetch selectedFile p) = None
     /\ errorMessage (handleUpload fetch selectedFile p)
        = Text (if instance_of_Error e then message e
                else text_of (lit "Agent failed")))
  /\ (forall (res : Response) (r : reader) (e : exn),
        fetch (formData selectedFile (preferences p)) = Resolved res ->
        ok res = true -> body res = Some r -> failure r = Some e ->
        state (handleUpload fetch selectedFile p) = error
        /\ steps (handleUpload fetch selectedFile p)
           = Outcome.steps_of (calls_of (Outcome.frames r))
        /\ errorMessage (handleUpload fetch selectedFile p)
           = Text (if instance_of_Error e then message e
                   else text_of (lit "Agent failed"))).
Proof.
  split.
  - intros e F. unfold handleUpload, uploadReportStreaming.
    change (preferences (setState agent_running (begin_upload selectedFile p)))
      with (preferences p).
    rewrite F. repeat split.
  - intros res r e F O B E. rewrite (attempt_served _ _ _ F O B). cbv zeta.
    rewrite E.
    pose proof (page_calls (calls_of (Outcome.frames r))
                  (setState agent_running (begin_upload selectedFile p))) as H.
    cbv zeta in H. destruct H as (H & _).
    split; [reflexivity|]. split; [exact H|reflexivity].
Qed.

Example broken_stream_keeps_step :
  state (handleUpload (fun _ => Resolved (Samples.streaming Samples.broken))
           Wire.pdf initial) = error
  /\ length (steps (handleUpload
                      (fun _ => Resolved (Samples.streaming Samples.broken))
                      Wire.pdf initial)) = 1
  /\ errorMessage (handleUpload
                     (fun _ => Resolved (Samples.streaming Samples.broken))
                     Wire.pdf initial)
     = Text (text_of (lit "Agent failed")).
Proof. vm_compute. repeat split. Qed.

Lemma occurs_spec (sep s : jsstring) :
  Outcome.occurs sep s = true <-> exists pre post, s = pre ++ sep ++ post.
Proof.
  split.
  - induction s as [|c r IH]; cbn [Outcome.occurs]; rewrite orb_true_iff.
    + intros [H|H]; [|discriminate]. exists [], (skipn (length sep) []).
      apply (startsWith_split _ _ H).
    + intros [H|H].
      * exists [], (skipn (length sep) (c :: r)).
        apply (startsWith_split _ _ H).
      * destruct (IH H) as (pre & post & ->). exists (c :: pre), post.
        reflexivity.
  - intros (pre & post & ->). induction pre as [|c pre IH].
    + assert (H : startsWith sep (sep ++ post) = true).
      { clear. induction sep as [|x sep IH]; [reflexivity|]. cbn.
        rewrite N.eqb_refl. exact IH. }
      cbn [app]. destruct (sep ++ post); cbn [Outcome.occurs]; rewrite H;
        reflexivity.
    + cbn [app Outcome.occurs]. rewrite IH. apply orb_true_r.
Qed.

Lemma split_no_separator (sep s : jsstring) :
  Outcome.occurs sep s = false -> split sep s = [s].
Proof.
  unfold split. induction s as [|c r IH]; [reflexivity|].
  cbn [Outcome.occurs]. rewrite orb_false_iff. intros [E O].
  destruct (split_from_cons _ _ _ E) as (q & qs & R & ->).
  rewrite (IH O) in R. inversion R. reflexivity.
Qed.

(** X21.  Frames are cut at two line feeds in a row and at nothing else.
    When the text of the stream holds no two line feeds in a row, as when
    the server ends its lines with CR LF, no frame is ever complete: no
    callback is called, whatever the text says, and the page of an attempt
    on such a stream stays running with an empty log. *)
Theorem no_blank_line_no_event
  (S : Type) (cb : callbacks S) (st : S) (values : list jsstring)
  (fetch : network) (selectedFile : File) (p : page) :
  Outcome.occurs [nl; nl] (concat values) = false ->
  read_loop cb [] values None st = Normal st
  /\ (fetch (formData selectedFile (preferences p))
      = Resolved {| ok := true; json_body := None;
                    body := Some {| chunks := values; failure := None |} |} ->
      state (handleUpload fetch selectedFile p) = agent_running
      /\ steps (handleUpload fetch selectedFile p) = []
      /\ doneResult (handleUpload fetch selectedFile p) = None).
Proof.
  intros O.
  assert (R : forall T (c : callbacks T) (t : T),
            read_loop c [] values None t = Normal t).
  { intros T c t. rewrite read_loop_returns, (split_no_separator _ _ O).
    reflexivity. }
  split; [apply R|]. intros F. unfold handleUpload, uploadReportStreaming.
  change (preferences (setState agent_running (begin_upload selectedFile p)))
    with (preferences p).
  rewrite F. cbn [negb ok body chunks failure]. rewrite R. repeat split.
Qed.

Lemma no_blank_line_no_event_witness :
  Outcome.occurs [nl; nl] (concat [Samples.crlf_done]) = false
  /\ read_loop page_callbacks [] [Samples.crlf_done] None initial
     = Normal initial.
Proof.
  assert (O : Outcome.occurs [nl; nl] (concat [Samples.crlf_done]) = false)
    by (vm_compute; reflexivity).
  split; [exact O|].
  exact (proj1 (@no_blank_line_no_event page page_callbacks initial
                  [Samples.crlf_done] (Wire.serve [Samples.crlf_done])
                  Wire.pdf initial O)).
Defined.
